(** * The [response] package: envelope, configuration, trace buffer, delivery

    A shallow embedding of [src/response/*.go].  Go's [int] is modelled as
    [Z]: the only arithmetic the modelled code performs on it is
    [MaxTraceSize - 1] behind a [MaxTraceSize > 0] test, [len] and the byte
    counter of the size estimator, none of which can wrap.  A Go [string] is a
    byte sequence and is modelled as [string]; [len] is [String.length].

    A [*Response] is an index into the heap of allocated responses kept in
    the process state, so that "the same instance" and "a fresh instance" are
    different things in the model, as they are in the program. *)

From Stdlib Require Import ZArith String List Lia.
From stdpp Require Import base option list strings pretty gmap.

Open Scope string_scope.
Open Scope list_scope.
Open Scope Z_scope.

(** ** config.go: configuration *)

Record Config := mkConfig {
  MaxTraceSize : Z;
  ResponseSizeLimit : Z;
  MaxInterceptorAmount : Z;
  DefaultContentType : string;
  EnableSizeValidation : bool
}.

Definition defaultConfig : Config :=
  {| MaxTraceSize := 50;
     ResponseSizeLimit := 10 * 1024 * 1024;
     MaxInterceptorAmount := 20;
     DefaultContentType := "application/json";
     EnableSizeValidation := true |}.

(** The zero value of [Config], which every [Response] literal that does not
    mention [config] carries. *)
Definition zeroConfig : Config :=
  {| MaxTraceSize := 0;
     ResponseSizeLimit := 0;
     MaxInterceptorAmount := 0;
     DefaultContentType := "";
     EnableSizeValidation := false |}.

(** The four [if] statements shared by [SetConfig] and [WithConfig]: each
    non-positive number and the empty content type is replaced by the
    built-in default; the boolean passes through. *)
Definition fillDefaults (config : Config) : Config :=
  {| MaxTraceSize :=
       if MaxTraceSize config <=? 0 then MaxTraceSize defaultConfig
       else MaxTraceSize config;
     ResponseSizeLimit :=
       if ResponseSizeLimit config <=? 0 then ResponseSizeLimit defaultConfig
       else ResponseSizeLimit config;
     MaxInterceptorAmount :=
       if MaxInterceptorAmount config <=? 0 then MaxInterceptorAmount defaultConfig
       else MaxInterceptorAmount config;
     DefaultContentType :=
       if bool_decide (DefaultContentType config = "") then DefaultContentType defaultConfig
       else DefaultContentType config;
     EnableSizeValidation := EnableSizeValidation config |}.

(** What the configuration store holds after [init] and after every
    [SetConfig]. *)
Definition validConfig (c : Config) : Prop :=
  0 < MaxTraceSize c /\ 0 < ResponseSizeLimit c /\
  0 < MaxInterceptorAmount c /\ DefaultContentType c <> "".

(** ** errors.go: the error types and their [Error] methods *)

Inductive error :=
| errorString (s : string)                      (* errors.New, library errors *)
| ConfigError (Field Msg : string)
| ValidationError (Field Message Value : string) (* Value as [%v] prints it *)
| SizeLimitError (Size Max : Z)
| EncodingError (Inner : error)
| TraceError (Msg : string)
| InterceptorLimitError (Current Max : Z)
| StatusCodeError (Code : Z).

(** [fmt.Sprintf] with [%d] is decimal notation, [%s] and [%v] of an error
    its text. *)
Fixpoint Error (e : error) : string :=
  match e with
  | errorString s => s
  | ConfigError f m => "invalid configuration: " +:+ f +:+ " - " +:+ m
  | ValidationError f m v =>
      "validation failed on '" +:+ f +:+ "': " +:+ m +:+ " (value=" +:+ v +:+ ")"
  | SizeLimitError s m =>
      "response size (" +:+ pretty s +:+ " bytes) exceeds limit (" +:+ pretty m +:+ " bytes)"
  | EncodingError inner => "encoding failed: " +:+ Error inner
  | TraceError m => "trace error: " +:+ m
  | InterceptorLimitError c m =>
      "maximum number of interceptors reached: " +:+ pretty c +:+ "/" +:+ pretty m
  | StatusCodeError c => "invalid HTTP status code: " +:+ pretty c
  end.

(** ** Dynamic values ([any]) as the code inspects them

    [appendTrace] switches on the dynamic type in the order string, error,
    [fmt.Stringer]; a value is modelled by the first case it matches. *)
Inductive any :=
| anyNil
| anyString (s : string)
| anyError (e : error)
| anyStringer (rendered : string)  (* neither string nor error; String() returns [rendered] *)
| anyOther (tag : nat).            (* every other dynamic value *)

(** ** pagination.go, interceptors.go: the envelope *)

Record PaginationMeta := mkPaginationMeta {
  Page : Z;
  Limit : Z;
  Total : Z;
  TotalPages : Z;
  HasNext : bool;
  HasPrev : bool;
  NextPage : option Z;
  PrevPage : option Z
}.

(** A [time.Time] is modelled by its RFC 3339 rendering, which is all the
    encoder uses of it. *)
Record Time := mkTime { RFC3339 : string }.

Definition zeroTime : Time := mkTime "0001-01-01T00:00:00Z".

(** [Module] is a reserved word, hence [Module_]. *)
Record Response := mkResponse {
  Module_ : string;
  Message : string;
  Data : any;
  Trace : list string;
  Timestamp : Time;
  PaginationData : option PaginationMeta;
  Code : Z;
  ContentType : string;
  TracePrefix : string;
  config : Config
}.

(** Field assignments [r.F = v]. *)
Definition setModule (v : string) (r : Response) : Response :=
  mkResponse v (Message r) (Data r) (Trace r) (Timestamp r) (PaginationData r)
             (Code r) (ContentType r) (TracePrefix r) (config r).
Definition setMessage (v : string) (r : Response) : Response :=
  mkResponse (Module_ r) v (Data r) (Trace r) (Timestamp r) (PaginationData r)
             (Code r) (ContentType r) (TracePrefix r) (config r).
Definition setData (v : any) (r : Response) : Response :=
  mkResponse (Module_ r) (Message r) v (Trace r) (Timestamp r) (PaginationData r)
             (Code r) (ContentType r) (TracePrefix r) (config r).
Definition setTrace (v : list string) (r : Response) : Response :=
  mkResponse (Module_ r) (Message r) (Data r) v (Timestamp r) (PaginationData r)
             (Code r) (ContentType r) (TracePrefix r) (config r).
Definition setCode (v : Z) (r : Response) : Response :=
  mkResponse (Module_ r) (Message r) (Data r) (Trace r) (Timestamp r) (PaginationData r)
             v (ContentType r) (TracePrefix r) (config r).
Definition setContentType (v : string) (r : Response) : Response :=
  mkResponse (Module_ r) (Message r) (Data r) (Trace r) (Timestamp r) (PaginationData r)
             (Code r) v (TracePrefix r) (config r).
Definition setTracePrefix (v : string) (r : Response) : Response :=
  mkResponse (Module_ r) (Message r) (Data r) (Trace r) (Timestamp r) (PaginationData r)
             (Code r) (ContentType r) v (config r).
Definition setConfigField (v : Config) (r : Response) : Response :=
  mkResponse (Module_ r) (Message r) (Data r) (Trace r) (Timestamp r) (PaginationData r)
             (Code r) (ContentType r) (TracePrefix r) v.

(** ** config.go: [getResponseConfig]

    [g] is what [getConfig()] returns, the process-wide configuration. *)
Definition getResponseConfig (g : Config) (r : Response) : Config :=
  if (0 <? MaxTraceSize (config r)) || (0 <? ResponseSizeLimit (config r)) ||
     (0 <? MaxInterceptorAmount (config r)) ||
     negb (bool_decide (DefaultContentType (config r) = ""))
  then config r
  else g.

(** ** helpers.go: [validateStatusCode] ([None] is Go's nil error) *)
Definition validateStatusCode (code : Z) : option error :=
  if (code <? 100) || (code >? 599) then Some (StatusCodeError code) else None.

(** ** tracing.go *)

(** The type switch of [appendTrace]; [None] is the [default: continue]. *)
Definition traceText (t : any) : option string :=
  match t with
  | anyString v => Some v
  | anyError v => Some (Error v)
  | anyStringer v => Some v
  | anyNil | anyOther _ => None
  end.

Definition truncMsg (maxTraceSize : Z) : string :=
  "Error: (trace truncated, max size: " +:+ pretty maxTraceSize +:+ ")".

(** The [for _, t := range trace] loop over the receiver's [Trace] slice.
    [r.Trace[config.MaxTraceSize-1] = ...] is only reached with
    [len(r.Trace) >= config.MaxTraceSize > 0], so the index is in range and
    the list update is the slice assignment. *)
Fixpoint appendTraceLoop (cfg : Config) (prefix : string) (force : bool)
    (trace : list any) (tr : list string) : list string :=
  match trace with
  | [] => tr
  | t :: rest =>
    match traceText t with
    | None => appendTraceLoop cfg prefix force rest tr
    | Some traceStr =>
      let traceStrFull := prefix +:+ ": " +:+ traceStr in
      let last := Z.to_nat (MaxTraceSize cfg - 1) in
      if Z.of_nat (length tr) <? MaxTraceSize cfg then
        appendTraceLoop cfg prefix force rest (tr ++ [traceStrFull])
      else if force && (0 <? MaxTraceSize cfg) then
        appendTraceLoop cfg prefix force rest (<[last := traceStr]> tr)
      else if negb force && (0 <? MaxTraceSize cfg) then
        if bool_decide (tr !! last = Some (truncMsg (MaxTraceSize cfg)))
        then tr
        else <[last := truncMsg (MaxTraceSize cfg)]> tr
      else appendTraceLoop cfg prefix force rest tr
    end
  end.

Definition appendTrace (g : Config) (prefix : string) (force : bool)
    (trace : list any) (r : Response) : Response :=
  setTrace (appendTraceLoop (getResponseConfig g r) prefix force trace (Trace r)) r.

Definition AddTrace (g : Config) (trace : list any) (r : Response) : Response :=
  if bool_decide (TracePrefix r = "") then appendTrace g "trace" false trace r
  else appendTrace g (TracePrefix r) false trace r.

Definition AddPrefixedTrace (g : Config) (prefix : string) (trace : list any)
    (r : Response) : Response :=
  if bool_decide (prefix = "") then appendTrace g "trace" false trace r
  else appendTrace g prefix false trace r.

Definition appendTraceInternal (g : Config) (prefix : string) (trace : list any)
    (r : Response) : Response :=
  appendTrace g prefix true trace r.

(** ** interceptors.go: the in-place mutators, as functions on the receiver *)

Definition WithConfig (g : Config) (cfg : Config) (r : Response) : Response :=
  let cfg := fillDefaults cfg in
  let r := setConfigField cfg r in
  if bool_decide (ContentType r = "") ||
     bool_decide (ContentType r = DefaultContentType g)
  then setContentType (DefaultContentType cfg) r
  else r.

Definition WithContentType (ctype : string) (r : Response) : Response :=
  setContentType ctype r.
Definition WithModule (module : string) (r : Response) : Response :=
  setModule module r.
Definition WithMsg (message : string) (r : Response) : Response :=
  setMessage message r.
Definition WithData (data : any) (r : Response) : Response :=
  setData data r.
Definition WithTracePrefix (prefix : string) (r : Response) : Response :=
  setTracePrefix prefix r.

(** ** Process state: configuration store, interceptor registry, heap *)

(** A [context.Context] as [sendInternal] tests it: nil, the value
    [context.Background()] returns, or anything else.  [context.TODO()] is
    not the value [context.Background()] returns. *)
Inductive Context :=
| ctxNil
| ctxBackground
| ctxTODO
| ctxRequest (id : nat).

(** An interceptor, given by what its two methods assign to the response
    they are handed.  This covers the interceptors that always return and
    touch nothing but that response; [Live] below takes an interceptor as
    the arbitrary code it is in the program. *)
Record ResponseInterceptor := mkInterceptor {
  Intercept : Context -> Response -> Z -> Response;
  InterceptSimple : Response -> Z -> Response
}.

(** Ghost record of the interceptor invocations a delivery makes. *)
Inductive Call :=
| calledIntercept (i : ResponseInterceptor) (ctx : Context) (statusCode : Z)
| calledInterceptSimple (i : ResponseInterceptor) (statusCode : Z).

Definition callee (c : Call) : ResponseInterceptor :=
  match c with calledIntercept i _ _ | calledInterceptSimple i _ => i end.

(** A [*Response]. *)
Abbreviation ptr := nat (only parsing).

Record State := mkState {
  globalConfig : Config;
  interceptors : list ResponseInterceptor;
  heap : list Response;
  clock : Time;            (* what time.Now() returns *)
  calls : list Call
}.

Definition setGlobalConfig (v : Config) (st : State) : State :=
  mkState v (interceptors st) (heap st) (clock st) (calls st).
Definition setInterceptors (v : list ResponseInterceptor) (st : State) : State :=
  mkState (globalConfig st) v (heap st) (clock st) (calls st).
Definition setHeap (v : list Response) (st : State) : State :=
  mkState (globalConfig st) (interceptors st) v (clock st) (calls st).
Definition logCall (c : Call) (st : State) : State :=
  mkState (globalConfig st) (interceptors st) (heap st) (clock st) (calls st ++ [c]).

(** The state after the package's [init]. *)
Definition initState (now : Time) : State :=
  mkState defaultConfig [] [] now [].

(** Computations over the process state; [None] is a nil-pointer panic. *)
Definition M (A : Type) : Type := State -> option (A * State).

Definition ret {A} (a : A) : M A := fun st => Some (a, st).
Definition bind {A B} (m : M A) (k : A -> M B) : M B :=
  fun st => match m st with
            | Some (a, st') => k a st'
            | None => None
            end.

Notation "x <- m ;; k" := (bind m (fun x => k))
  (at level 20, m at level 99, k at level 200, only parsing).

Definition SetConfig (cfg : Config) : M unit :=
  fun st => Some (tt, setGlobalConfig (fillDefaults cfg) st).

Definition getConfig : M Config := fun st => Some (globalConfig st, st).
Definition GetConfig : M Config := getConfig.

Definition AddInterceptor (interceptor : ResponseInterceptor) : M (option error) :=
  fun st =>
    let n := Z.of_nat (length (interceptors st)) in
    if n >=? MaxInterceptorAmount (globalConfig st)
    then Some (Some (InterceptorLimitError n (MaxInterceptorAmount (globalConfig st))), st)
    else Some (None, setInterceptors (interceptors st ++ [interceptor]) st).

Definition RemoveAllInterceptors : M unit :=
  fun st => Some (tt, setInterceptors [] st).

Definition GetInterceptors : M (list ResponseInterceptor) :=
  fun st => Some (interceptors st, st).

(** [&Response{...}]: allocation of a new instance. *)
Definition new (r : Response) : M ptr :=
  fun st => Some (length (heap st), setHeap (heap st ++ [r]) st).

(** A method with a pointer receiver that assigns to the receiver's fields and
    returns the receiver; [f] is given what [getConfig()] returns. *)
Definition method (f : Config -> Response -> Response) (r : ptr) : M ptr :=
  fun st => match heap st !! r with
            | Some v => Some (r, setHeap (<[r := f (globalConfig st) v]> (heap st)) st)
            | None => None
            end.

(** ** config.go: the constructors; [msg ...string] is a list *)

Definition newBaseResponse (code : Z) (msg : list string) : M ptr :=
  fun st =>
    let message := match msg with m :: _ => m | [] => "" end in
    new {| Module_ := ""; Message := message; Data := anyNil; Trace := [];
           Timestamp := clock st; PaginationData := None; Code := code;
           ContentType := DefaultContentType (globalConfig st);
           TracePrefix := ""; config := zeroConfig |} st.

Definition Base (cfg : option Config) : M ptr :=
  fun st =>
    let conf := match cfg with Some c => c | None => globalConfig st end in
    new {| Module_ := ""; Message := ""; Data := anyNil; Trace := [];
           Timestamp := zeroTime; PaginationData := None; Code := 0;
           ContentType := DefaultContentType conf;
           TracePrefix := ""; config := conf |} st.

(** The [net/http] status constants the constructors use. *)
Definition StatusOK : Z := 200.
Definition StatusCreated : Z := 201.
Definition StatusAccepted : Z := 202.
Definition StatusNoContent : Z := 204.
Definition StatusBadRequest : Z := 400.
Definition StatusUnauthorized : Z := 401.
Definition StatusPaymentRequired : Z := 402.
Definition StatusForbidden : Z := 403.
Definition StatusNotFound : Z := 404.
Definition StatusMethodNotAllowed : Z := 405.
Definition StatusConflict : Z := 409.
Definition StatusUnprocessableEntity : Z := 422.
Definition StatusTooManyRequests : Z := 429.
Definition StatusInternalServerError : Z := 500.
Definition StatusNotImplemented : Z := 501.
Definition StatusBadGateway : Z := 502.
Definition StatusServiceUnavailable : Z := 503.

Definition OK (msg : list string) : M ptr := newBaseResponse StatusOK msg.
Definition Created (msg : list string) : M ptr := newBaseResponse StatusCreated msg.
Definition Accepted (msg : list string) : M ptr := newBaseResponse StatusAccepted msg.
Definition NoContent (msg : list string) : M ptr := newBaseResponse StatusNoContent msg.
Definition BadRequest (msg : list string) : M ptr := newBaseResponse StatusBadRequest msg.
Definition Unauthorized (msg : list string) : M ptr :=
  newBaseResponse StatusUnauthorized msg.
Definition PaymentRequired (msg : list string) : M ptr :=
  newBaseResponse StatusPaymentRequired msg.
Definition Forbidden (msg : list string) : M ptr := newBaseResponse StatusForbidden msg.
Definition NotFound (msg : list string) : M ptr := newBaseResponse StatusNotFound msg.
Definition MethodNotAllowed (msg : list string) : M ptr :=
  newBaseResponse StatusMethodNotAllowed msg.
Definition Conflict (msg : list string) : M ptr := newBaseResponse StatusConflict msg.
Definition UnprocessableEntity (msg : list string) : M ptr :=
  newBaseResponse StatusUnprocessableEntity msg.
Definition TooManyRequests (msg : list string) : M ptr :=
  newBaseResponse StatusTooManyRequests msg.
Definition InternalServerError (msg : list string) : M ptr :=
  newBaseResponse StatusInternalServerError msg.
Definition NotImplemented (msg : list string) : M ptr :=
  newBaseResponse StatusNotImplemented msg.
Definition BadGateway (msg : list string) : M ptr := newBaseResponse StatusBadGateway msg.
Definition ServiceUnavailable (msg : list string) : M ptr :=
  newBaseResponse StatusServiceUnavailable msg.

(** ** interceptors.go: [WithCode]

    On an invalid code the receiver is not even read: the method returns the
    pointer [InternalServerError] allocated. *)
Definition WithCode (code : Z) (r : ptr) : M ptr :=
  match validateStatusCode code with
  | Some err =>
      e <- InternalServerError ["Invalid status code set"] ;;
      method (fun g => appendTraceInternal g "error" [anyError err]) e
  | None => method (fun _ => setCode code) r
  end.

(** The response [InternalServerError("Invalid status code set")] allocates
    and [appendTraceInternal("error", err)] then completes. *)
Definition invalidCodeResponse (st : State) (code : Z) : Response :=
  {| Module_ := ""; Message := "Invalid status code set"; Data := anyNil;
     Trace := ["error: invalid HTTP status code: " +:+ pretty code];
     Timestamp := clock st; PaginationData := None;
     Code := 500; ContentType := DefaultContentType (globalConfig st);
     TracePrefix := ""; config := zeroConfig |}.

(** ** Serialization and delivery *)

(** What the struct tags of [Response] expose to a JSON encoder:
    [ContentType] and [TracePrefix] are tagged ["-"] and [config] is
    unexported, so no encoder sees them. *)
Record Wire := mkWire {
  jModule : string;                      (* "module,omitempty" *)
  jMessage : string;                     (* "message,omitempty" *)
  jData : any;                           (* "data,omitempty" *)
  jTrace : list string;                  (* "trace,omitempty" *)
  jTimestamp : Time;                     (* "timestamp,omitempty" *)
  jPagination : option PaginationMeta;   (* "pagination,omitempty" *)
  jCode : Z                              (* "code,omitempty" *)
}.

Definition wire (r : Response) : Wire :=
  {| jModule := Module_ r; jMessage := Message r; jData := Data r;
     jTrace := Trace r; jTimestamp := Timestamp r;
     jPagination := PaginationData r; jCode := Code r |}.

(** [io.Writer]. *)
Class Writer (W : Type) := Write : string -> W -> W.

(** helpers.go: the counting writer. *)
Record sizeEstimator := mkSizeEstimator { size : Z }.

#[export] Instance sizeEstimator_Writer : Writer sizeEstimator :=
  fun p s => {| size := size s + Z.of_nat (String.length p) |}.

(** The [http.ResponseWriter] a delivery writes to: the header map, the
    status line once written, the body bytes. *)
Record ResponseWriter := mkResponseWriter {
  Header : gmap string string;
  status : option Z;
  body : string
}.

Definition HeaderSet (key value : string) (w : ResponseWriter) : ResponseWriter :=
  {| Header := <[key := value]> (Header w); status := status w; body := body w |}.

(** The first [WriteHeader] fixes the status.  The check of the code that
    the writers of net/http and httptest make, and the panic it ends in, are
    in [Live.WriteHeader] below; the deliveries stated with this function
    have a code in [100, 999]. *)
Definition WriteHeader (statusCode : Z) (w : ResponseWriter) : ResponseWriter :=
  {| Header := Header w;
     status := match status w with Some c => Some c | None => Some statusCode end;
     body := body w |}.

#[export] Instance ResponseWriter_Writer : Writer ResponseWriter :=
  fun p w => {| Header := Header w; status := status w; body := body w +:+ p |}.

Definition newResponseWriter : ResponseWriter :=
  {| Header := ∅; status := None; body := "" |}.

(** [json.NewEncoder(w).Encode(v)]: marshal, then hand the bytes to [w]
    in one [Write]; on a marshalling error nothing is written. *)
Definition Encode {W} `{Writer W} (marshal : Wire -> string + error)
    (w : W) (v : Response) : W * option error :=
  match marshal (wire v) with
  | inl p => (Write p w, None)
  | inr err => (w, Some err)
  end.

Definition requestScoped (ctx : Context) : bool :=
  match ctx with
  | ctxNil | ctxBackground => false      (* ctx != nil && ctx != context.Background() *)
  | ctxTODO | ctxRequest _ => true
  end.

Section Delivery.

(** The two encoders are library code.  interceptors.go imports
    [encoding/json]; helpers.go imports [encoding/json/v2], a package that
    has no [NewEncoder], so that helpers.go as it stands does not compile.
    [estimateSize] is embedded as what it is written to be, one [Encode] of
    the response on the counting writer, and each encoder is a parameter: a
    function from the exposed fields to the bytes its [Encode] writes, or to
    its error. *)
Variable json_Marshal : Wire -> string + error.      (* encoding/json *)
Variable jsonv2_Marshal : Wire -> string + error.    (* encoding/json/v2 *)

(** helpers.go *)
Definition estimateSize (r : Response) : Z * option error :=
  let estimator := {| size := 0 |} in
  match Encode jsonv2_Marshal estimator r with
  | (_, Some err) => (0, Some err)
  | (estimator, None) => (size estimator, None)
  end.

Definition validateResponseSize (g : Config) (r : Response) : option error :=
  let config := getResponseConfig g r in
  if negb (EnableSizeValidation config) then None
  else
    match estimateSize r with
    | (_, Some err) => Some (EncodingError err)
    | (size, None) =>
        if size >? ResponseSizeLimit config
        then Some (SizeLimitError size (ResponseSizeLimit config))
        else None
    end.

Definition IsWithinLimits (g : Config) (r : Response) : bool :=
  let config := getResponseConfig g r in
  if Z.of_nat (length (Trace r)) >? MaxTraceSize config then false
  else if EnableSizeValidation config then
    match validateResponseSize g r with Some _ => false | None => true end
  else true.

(** interceptors.go: the [for _, interceptor := range currentInterceptors]
    loop of [sendInternal]; [r.Code] is read at each call. *)
Fixpoint runInterceptors (ctx : Context) (currentInterceptors : list ResponseInterceptor)
    (r : ptr) : M unit :=
  match currentInterceptors with
  | [] => ret tt
  | interceptor :: rest =>
      fun st =>
        match heap st !! r with
        | None => None
        | Some v =>
            let st' :=
              if requestScoped ctx then
                logCall (calledIntercept interceptor ctx (Code v))
                  (setHeap (<[r := Intercept interceptor ctx v (Code v)]> (heap st)) st)
              else
                logCall (calledInterceptSimple interceptor (Code v))
                  (setHeap (<[r := InterceptSimple interceptor v (Code v)]> (heap st)) st)
            in runInterceptors ctx rest r st'
        end
  end.

Definition sendInternal (ctx : Context) (w : ResponseWriter) (r : ptr)
    : M ResponseWriter :=
  currentInterceptors <- GetInterceptors ;;
  _ <- runInterceptors ctx currentInterceptors r ;;
  fun st =>
    match heap st !! r with
    | None => None
    | Some v =>
        let w := HeaderSet "Content-Type" (ContentType v) w in
        let w := WriteHeader (Code v) w in
        match Encode json_Marshal w v with
        | (w, Some err) =>
            (_ <- method (fun g => appendTraceInternal g "internal error"
                                     [anyString (Error (EncodingError err))]) r ;;
             ret w) st
        | (w, None) => Some (w, st)
        end
    end.

Definition SendWithContext (ctx : Context) (w : ResponseWriter) (r : ptr)
    : M ResponseWriter :=
  fun st =>
    match heap st !! r with
    | None => None
    | Some v =>
        match validateResponseSize (globalConfig st) v with
        | Some _ =>
            (errorResp <- WithCode StatusInternalServerError r ;;
             g <- getConfig ;;
             errorResp <- method (fun _ => WithContentType (DefaultContentType g)) errorResp ;;
             sendInternal ctx w errorResp) st
        | None => sendInternal ctx w r st
        end
    end.

Definition Send (w : ResponseWriter) (r : ptr) : M ResponseWriter :=
  SendWithContext ctxBackground w r.

End Delivery.

(** ** Caller programs over one response *)











(** ** A concrete encoder

    The properties below hold for every pair of encoders.  To run a delivery
    on a concrete input an encoder is needed; this one writes the exposed
    fields as a compact JSON object followed by a newline, omitting the
    [omitempty] fields that are empty.  It writes strings without escapes and
    supports nil and string payloads only. *)

Definition dquote : string := String (Ascii.ascii_of_nat 34) "".
Definition newline : string := String (Ascii.ascii_of_nat 10) "".

Definition quoted (s : string) : string := dquote +:+ s +:+ dquote.

Definition member (key value : string) : string := quoted key +:+ ":" +:+ value.

Fixpoint joinWith (sep : string) (l : list string) : string :=
  match l with
  | [] => ""
  | [x] => x
  | x :: rest => x +:+ sep +:+ joinWith sep rest
  end.

Definition jsonBool (b : bool) : string := if b then "true" else "false".

Definition paginationMembers (p : PaginationMeta) : list string :=
  [member "page" (pretty (Page p)); member "limit" (pretty (Limit p));
   member "total" (pretty (Total p)); member "total_pages" (pretty (TotalPages p));
   member "has_next" (jsonBool (HasNext p)); member "has_prev" (jsonBool (HasPrev p))]
  ++ match NextPage p with Some n => [member "next_page" (pretty n)] | None => [] end
  ++ match PrevPage p with Some n => [member "prev_page" (pretty n)] | None => [] end.

Definition jsonObject (members : list string) : string :=
  "{" +:+ joinWith "," members +:+ "}".

Definition envelopeMembers (v : Wire) (data : list string) : list string :=
  (if bool_decide (jModule v = "") then [] else [member "module" (quoted (jModule v))])
  ++ (if bool_decide (jMessage v = "") then [] else [member "message" (quoted (jMessage v))])
  ++ data
  ++ match jTrace v with
     | [] => []
     | tr => [member "trace" ("[" +:+ joinWith "," (quoted <$> tr) +:+ "]")]
     end
  ++ [member "timestamp" (quoted (RFC3339 (jTimestamp v)))]
  ++ match jPagination v with
     | Some p => [member "pagination" (jsonObject (paginationMembers p))]
     | None => []
     end
  ++ (if bool_decide (jCode v = 0) then [] else [member "code" (pretty (jCode v))]).

Definition sampleMarshal (v : Wire) : string + error :=
  match jData v with
  | anyNil => inl (jsonObject (envelopeMembers v []) +:+ newline)
  | anyString s => inl (jsonObject (envelopeMembers v [member "data" (quoted s)]) +:+ newline)
  | _ => inr (errorString "json: unsupported type")
  end.

(** A second encoder, which differs from the first: no trailing newline. *)
Definition sampleMarshalCompact (v : Wire) : string + error :=
  match jData v with
  | anyNil => inl (jsonObject (envelopeMembers v []))
  | anyString s => inl (jsonObject (envelopeMembers v [member "data" (quoted s)]))
  | _ => inr (errorString "json: unsupported type")
  end.

(** ** Concrete inputs *)

Definition noon : Time := mkTime "2024-05-01T12:00:00Z".

(** A per-response override that caps the trace at [n] entries. *)
Definition traceCap (n : Z) : Config :=
  {| MaxTraceSize := n; ResponseSizeLimit := 0; MaxInterceptorAmount := 0;
     DefaultContentType := ""; EnableSizeValidation := false |}.

(** A response as [NotFound()] builds it, carrying the override [cfg] and
    the trace [tr]. *)
Definition sampleResponse (cfg : Config) (tr : list string) : Response :=
  {| Module_ := ""; Message := ""; Data := anyNil; Trace := tr;
     Timestamp := noon; PaginationData := None; Code := StatusNotFound;
     ContentType := "application/json"; TracePrefix := ""; config := cfg |}.

(** The process after [init], with the given responses allocated. *)
Definition processWith (h : list Response) : State :=
  setHeap h (initState noon).

(** An override in which only the size-validation toggle is set. *)
Definition toggleOnly : Config :=
  {| MaxTraceSize := 0; ResponseSizeLimit := 0; MaxInterceptorAmount := 0;
     DefaultContentType := ""; EnableSizeValidation := true |}.

(** A process-wide configuration with size validation switched off, as
    [SetConfig(Config{})] stores it. *)
Definition validationOff : Config := fillDefaults zeroConfig.

(** The capability a delivery with context [ctx] is to call: [Intercept]
    with that context when the context is neither nil nor
    [context.Background()], [InterceptSimple] otherwise. *)
Definition capabilityFor (ctx : Context) (c : Call) : Prop :=
  match c with
  | calledIntercept _ ctx' _ => requestScoped ctx = true /\ ctx' = ctx
  | calledInterceptSimple _ _ => requestScoped ctx = false
  end.

(** The bytes an [Encode] hands to the writer: none on an error. *)
Definition emitted (x : string + error) : string :=
  match x with inl p => p | inr _ => "" end.

(** [NotFound().WithMsg("missing").AddPrefixedTrace("lookup", "id=42").Send(w)]:
    the caller-facing append takes the prefix and the text of an entry and
    stores them as ["<prefix>: <text>"]. *)
Definition notFoundProgram (json_Marshal jsonv2_Marshal : Wire -> string + error)
    (w : ResponseWriter) : M ResponseWriter :=
  r <- NotFound [] ;;
  r <- method (fun _ => WithMsg "missing") r ;;
  r <- method (fun g => AddPrefixedTrace g "lookup" [anyString "id=42"]) r ;;
  Send json_Marshal jsonv2_Marshal w r.

(** A response of 200 whose message alone exceeds a size limit of ten
    bytes, with the content type ["text/plain"]. *)
Definition oversized : Response :=
  {| Module_ := "billing"; Message := "a message longer than ten bytes";
     Data := anyNil; Trace := ["trace: step 1"];
     Timestamp := noon; PaginationData := None; Code := StatusOK;
     ContentType := "text/plain"; TracePrefix := "";
     config := {| MaxTraceSize := 50; ResponseSizeLimit := 10;
                  MaxInterceptorAmount := 20; DefaultContentType := "text/plain";
                  EnableSizeValidation := true |} |}.

(** An interceptor that tags the module of the response it is handed, and
    one that leaves it alone. *)
Definition taggingInterceptor : ResponseInterceptor :=
  {| Intercept := fun _ r _ => setModule "seen-with-context" r;
     InterceptSimple := fun r _ => setModule "seen" r |}.

Definition idleInterceptor : ResponseInterceptor :=
  {| Intercept := fun _ r _ => r; InterceptSimple := fun r _ => r |}.

(** A process with one not-found response allocated and two interceptors
    registered. *)
Definition observedProcess : State :=
  setInterceptors [taggingInterceptor; idleInterceptor]
    (processWith [sampleResponse zeroConfig []]).

(** The process after [SetConfig(Config{})]: defaults, size validation off. *)
Definition unguardedProcess : State :=
  setGlobalConfig validationOff (initState noon).

(** ** config.go: the status methods on an existing response *)

Definition applyMessage (msg : list string) (r : Response) : Response :=
  match msg with
  | m :: _ => setMessage m r
  | [] => setMessage "" r
  end.

(** [r.OK(msg...)] and its sixteen siblings: [r.Code = ...] and then
    [r.applyMessage(msg...)].  The methods share their names with the
    constructors, hence the name space. *)
Module Receiver.
Definition OK (msg : list string) (r : Response) : Response :=
  applyMessage msg (setCode StatusOK r).
Definition Created (msg : list string) (r : Response) : Response :=
  applyMessage msg (setCode StatusCreated r).
Definition Accepted (msg : list string) (r : Response) : Response :=
  applyMessage msg (setCode StatusAccepted r).
Definition NoContent (msg : list string) (r : Response) : Response :=
  applyMessage msg (setCode StatusNoContent r).
Definition BadRequest (msg : list string) (r : Response) : Response :=
  applyMessage msg (setCode StatusBadRequest r).
Definition Unauthorized (msg : list string) (r : Response) : Response :=
  applyMessage msg (setCode StatusUnauthorized r).
Definition PaymentRequired (msg : list string) (r : Response) : Response :=
  applyMessage msg (setCode StatusPaymentRequired r).
Definition Forbidden (msg : list string) (r : Response) : Response :=
  applyMessage msg (setCode StatusForbidden r).
Definition NotFound (msg : list string) (r : Response) : Response :=
  applyMessage msg (setCode StatusNotFound r).
Definition MethodNotAllowed (msg : list string) (r : Response) : Response :=
  applyMessage msg (setCode StatusMethodNotAllowed r).
Definition Conflict (msg : list string) (r : Response) : Response :=
  applyMessage msg (setCode StatusConflict r).
Definition UnprocessableEntity (msg : list string) (r : Response) : Response :=
  applyMessage msg (setCode StatusUnprocessableEntity r).
Definition TooManyRequests (msg : list string) (r : Response) : Response :=
  applyMessage msg (setCode StatusTooManyRequests r).
Definition InternalServerError (msg : list string) (r : Response) : Response :=
  applyMessage msg (setCode StatusInternalServerError r).
Definition NotImplemented (msg : list string) (r : Response) : Response :=
  applyMessage msg (setCode StatusNotImplemented r).
Definition BadGateway (msg : list string) (r : Response) : Response :=
  applyMessage msg (setCode StatusBadGateway r).
Definition ServiceUnavailable (msg : list string) (r : Response) : Response :=
  applyMessage msg (setCode StatusServiceUnavailable r).
End Receiver.

(** The status methods with the code each one assigns, and the constructors
    with the code each one passes to [newBaseResponse]. *)
Definition statusMethods : list (Z * (list string -> Response -> Response)) :=
  [(200, Receiver.OK); (201, Receiver.Created); (202, Receiver.Accepted);
   (204, Receiver.NoContent); (400, Receiver.BadRequest);
   (401, Receiver.Unauthorized); (402, Receiver.PaymentRequired);
   (403, Receiver.Forbidden); (404, Receiver.NotFound);
   (405, Receiver.MethodNotAllowed); (409, Receiver.Conflict);
   (422, Receiver.UnprocessableEntity); (429, Receiver.TooManyRequests);
   (500, Receiver.InternalServerError); (501, Receiver.NotImplemented);
   (502, Receiver.BadGateway); (503, Receiver.ServiceUnavailable)].

Definition statusConstructors : list (Z * (list string -> M ptr)) :=
  [(200, OK); (201, Created); (202, Accepted); (204, NoContent);
   (400, BadRequest); (401, Unauthorized); (402, PaymentRequired);
   (403, Forbidden); (404, NotFound); (405, MethodNotAllowed); (409, Conflict);
   (422, UnprocessableEntity); (429, TooManyRequests);
   (500, InternalServerError); (501, NotImplemented); (502, BadGateway);
   (503, ServiceUnavailable)].

(** ** pagination.go *)

Module Params.
Record t := mk { Page : Z; Limit : Z }.
End Params.

Definition defaultPage : Z := 1.
Definition defaultLimit : Z := 20.
Definition maxLimit : Z := 100.

(** [url.Values] is [map[string][]string]; [Get] is the first value of the
    key, or the empty string. *)
Definition Values_Get (values : gmap string (list string)) (key : string) : string :=
  match values !! key with
  | Some (v :: _) => v
  | _ => ""
  end.

Definition setPaginationData (v : option PaginationMeta) (r : Response) : Response :=
  mkResponse (Module_ r) (Message r) (Data r) (Trace r) (Timestamp r) v
             (Code r) (ContentType r) (TracePrefix r) (config r).

Section Pagination.

(** Library code: [strconv.Atoi] ([None] when it returns an error), and the
    floating-point expression
    [int(math.Ceil(float64(total) / float64(params.Limit)))]. *)
Variable Atoi : string -> option Z.
Variable ceilOfQuotient : Z -> Z -> Z.

Definition ParsePaginationFromQuery (values : gmap string (list string)) : Params.t :=
  let page :=
    match Atoi (Values_Get values "page") with
    | Some page => if page <? 1 then defaultPage else page
    | None => defaultPage
    end in
  let limit :=
    match Atoi (Values_Get values "limit") with
    | Some limit => if limit <? 1 then defaultLimit else limit
    | None => defaultLimit
    end in
  let limit := if limit >? maxLimit then maxLimit else limit in
  {| Params.Page := page; Params.Limit := limit |}.

Definition CreatePaginationMeta (params : Params.t) (total : Z) : PaginationMeta :=
  let totalPages := ceilOfQuotient total (Params.Limit params) in
  let hasNext := Params.Page params <? totalPages in
  let hasPrev := Params.Page params >? 1 in
  {| Page := Params.Page params;
     Limit := Params.Limit params;
     Total := total;
     TotalPages := totalPages;
     HasNext := hasNext;
     HasPrev := hasPrev;
     NextPage := if hasNext then Some (Params.Page params + 1) else None;
     PrevPage := if hasPrev then Some (Params.Page params - 1) else None |}.

Definition WithPagination (params : Params.t) (total : Z) (r : Response) : Response :=
  setPaginationData (Some (CreatePaginationMeta params total)) r.

End Pagination.

(** ** validation (in pagination.go): [AddValidationErrors] *)

(** [Value] is modelled by what [%v] prints for it; [None] is a nil value. *)
Module ValidationTrace.
Record t := mk { Field : string; Message : string; Value : option string }.
End ValidationTrace.

Definition validationTraceMsg (err : ValidationTrace.t) : string :=
  match ValidationTrace.Value err with
  | Some v =>
      "(" +:+ ValidationTrace.Field err +:+ ") " +:+ ValidationTrace.Message err
          +:+ ": " +:+ v
  | None =>
      "(" +:+ ValidationTrace.Field err +:+ ") " +:+ ValidationTrace.Message err
  end.

(** The [for _, err := range errs] loop. *)
Fixpoint addValidationTraces (errs : list ValidationTrace.t) (r : ptr) : M ptr :=
  match errs with
  | [] => ret r
  | err :: rest =>
      _ <- method (fun g => appendTraceInternal g "validation"
                              [anyString (validationTraceMsg err)]) r ;;
      addValidationTraces rest r
  end.

Definition AddValidationErrors (errs : list ValidationTrace.t) : M ptr :=
  match errs with
  | [] => BadRequest ["Validation failed"]
  | _ =>
      r <- BadRequest ["Validation failed"] ;;
      addValidationTraces errs r
  end.

(** ** Programs and reference functions for the properties below *)

(** [AddInterceptor] called once for each interceptor of a list, collecting
    the errors returned. *)
Fixpoint registerAll (l : list ResponseInterceptor) : M (list (option error)) :=
  match l with
  | [] => ret []
  | i :: rest =>
      e <- AddInterceptor i ;;
      es <- registerAll rest ;;
      ret (e :: es)
  end.





(** The response [SendWithContext] hands to [sendInternal]: the receiver, or
    the receiver with code 500 and the process-wide default content type when
    its size check fails. *)
Definition guarded (jsonv2_Marshal : Wire -> string + error) (g : Config)
    (v : Response) : Response :=
  match validateResponseSize jsonv2_Marshal g v with
  | Some _ => setContentType (DefaultContentType g) (setCode StatusInternalServerError v)
  | None => v
  end.


(** The number of interceptors the registry still accepts. *)
Definition room (st : State) : nat :=
  Z.to_nat (MaxInterceptorAmount (globalConfig st)
            - Z.of_nat (length (interceptors st))).

(** The texts of the entries of a call, without prefix. *)
Definition textsOf (trace : list any) : list string := omap traceText trace.

(** A digits-only stand-in for [strconv.Atoi], and exact ceiling division,
    to run the pagination functions on concrete inputs. *)
Definition digitValue (c : Ascii.ascii) : option Z :=
  let n := Z.of_nat (Ascii.nat_of_ascii c) in
  if (48 <=? n) && (n <=? 57) then Some (n - 48) else None.

Fixpoint digitsValue (acc : Z) (s : string) : option Z :=
  match s with
  | EmptyString => Some acc
  | String c rest =>
      match digitValue c with
      | Some d => digitsValue (10 * acc + d) rest
      | None => None
      end
  end.

Definition sampleAtoi (s : string) : option Z :=
  match s with
  | EmptyString => None
  | _ => digitsValue 0 s
  end.

Definition sampleCeil (total limit : Z) : Z := (total + limit - 1) / limit.

(** ** Delivery with the caller's code and the writer as the program has them

    The delivery functions above fix an interceptor by its effect on the
    response it is handed, and write to a writer that takes whatever it is
    given.  In the program an interceptor is code of the caller, which
    [sendInternal] runs with no lock held: it can call [SetConfig],
    [AddInterceptor] or [RemoveAllInterceptors], assign to any response it
    can reach, keep memory of its own, or panic.
    [http.ResponseWriter.WriteHeader] panics on a status code outside
    [100, 999] ([checkWriteHeaderCode] in net/http, which httptest's
    recorder calls as well), and [Write] can return an error after writing
    part of its argument.  The delivery functions are embedded here once
    more with all of that.  The writer itself is taken to be out of the
    interceptors' reach: they are handed the context, the response and the
    code, not the writer. *)
Module Live.

Section Program.

(** [Mem] is what the rest of the program keeps in memory; the package
    never looks at it.  [I] is the type of the interface values the registry
    holds; the two methods of each are given by [implementation] below. *)
Context {Mem I : Type}.

Record World := mkWorld {
  globalConfig : Config;
  interceptors : list I;
  heap : list Response;
  clock : Time;
  memory : Mem
}.

Definition setHeap (v : list Response) (st : World) : World :=
  mkWorld (globalConfig st) (interceptors st) v (clock st) (memory st).

(** The two methods of an interceptor: each is handed the pointer to the
    response and the status code, runs on the whole process state and
    either returns, leaving a state, or panics ([None]). *)
Record ResponseInterceptor := mkInterceptor {
  Intercept : Context -> ptr -> Z -> World -> option World;
  InterceptSimple : ptr -> Z -> World -> option World
}.

(** Ghost record of the interceptor invocations a delivery makes. *)
Inductive Call :=
| calledIntercept (i : I) (ctx : Context) (response : ptr) (statusCode : Z)
| calledInterceptSimple (i : I) (response : ptr) (statusCode : Z).

Definition callee (c : Call) : I :=
  match c with calledIntercept i _ _ _ | calledInterceptSimple i _ _ => i end.

Variable implementation : I -> ResponseInterceptor.

Variable json_Marshal : Wire -> string + error.      (* encoding/json *)
Variable jsonv2_Marshal : Wire -> string + error.    (* encoding/json/v2 *)

(** [w.Write(p)] of the writer in use: the writer as the call leaves it and
    the error it returns. *)
Variable transport : string -> ResponseWriter -> ResponseWriter * option error.

(** [w.WriteHeader(statusCode)]: ignored once the header has been written,
    a panic on a code outside [100, 999]. *)
Definition WriteHeader (statusCode : Z) (w : ResponseWriter) : option ResponseWriter :=
  match status w with
  | Some _ => Some w
  | None =>
      if (statusCode <? 100) || (statusCode >? 999) then None
      else Some {| Header := Header w; status := Some statusCode; body := body w |}
  end.

(** [json.NewEncoder(w).Encode(v)]: marshal, then hand the bytes to [w] in
    one [Write]; on a marshalling error nothing is written. *)
Definition Encode (w : ResponseWriter) (v : Response) : ResponseWriter * option error :=
  match json_Marshal (wire v) with
  | inl p => transport p w
  | inr err => (w, Some err)
  end.

(** interceptors.go: [WithCode], on this state. *)
Definition WithCode (code : Z) (r : ptr) (st : World) : option (ptr * World) :=
  match validateStatusCode code with
  | Some err =>
      let e := {| Module_ := ""; Message := "Invalid status code set"; Data := anyNil;
                  Trace := []; Timestamp := clock st; PaginationData := None;
                  Code := StatusInternalServerError;
                  ContentType := DefaultContentType (globalConfig st);
                  TracePrefix := ""; config := zeroConfig |} in
      Some (length (heap st),
            setHeap (heap st ++ [appendTraceInternal (globalConfig st) "error"
                                   [anyError err] e]) st)
  | None =>
      match heap st !! r with
      | Some v => Some (r, setHeap (<[r := setCode code v]> (heap st)) st)
      | None => None
      end
  end.

(** The [for _, interceptor := range currentInterceptors] loop of
    [sendInternal]; [r.Code] is read at each call, in the state the
    previous interceptor left. *)
Fixpoint runInterceptors (ctx : Context) (currentInterceptors : list I) (r : ptr)
    (st : World) (log : list Call) : option (World * list Call) :=
  match currentInterceptors with
  | [] => Some (st, log)
  | interceptor :: rest =>
      match heap st !! r with
      | None => None
      | Some v =>
          if requestScoped ctx then
            match Intercept (implementation interceptor) ctx r (Code v) st with
            | Some st =>
                runInterceptors ctx rest r st
                  (log ++ [calledIntercept interceptor ctx r (Code v)])
            | None => None
            end
          else
            match InterceptSimple (implementation interceptor) r (Code v) st with
            | Some st =>
                runInterceptors ctx rest r st
                  (log ++ [calledInterceptSimple interceptor r (Code v)])
            | None => None
            end
      end
  end.

Definition sendInternal (ctx : Context) (w : ResponseWriter) (r : ptr)
    (st : World) (log : list Call) : option (ResponseWriter * World * list Call) :=
  let currentInterceptors := interceptors st in
  match runInterceptors ctx currentInterceptors r st log with
  | None => None
  | Some (st, log) =>
      match heap st !! r with
      | None => None
      | Some v =>
          let w := HeaderSet "Content-Type" (ContentType v) w in
          match WriteHeader (Code v) w with
          | None => None
          | Some w =>
              match Encode w v with
              | (w, Some err) =>
                  Some (w,
                        setHeap (<[r := appendTraceInternal (globalConfig st)
                                          "internal error"
                                          [anyString (Error (EncodingError err))] v]>
                                   (heap st)) st,
                        log)
              | (w, None) => Some (w, st, log)
              end
          end
      end
  end.

Definition SendWithContext (ctx : Context) (w : ResponseWriter) (r : ptr)
    (st : World) (log : list Call) : option (ResponseWriter * World * list Call) :=
  match heap st !! r with
  | None => None
  | Some v =>
      match validateResponseSize jsonv2_Marshal (globalConfig st) v with
      | Some _ =>
          match WithCode StatusInternalServerError r st with
          | None => None
          | Some (errorResp, st) =>
              match heap st !! errorResp with
              | None => None
              | Some e =>
                  sendInternal ctx w errorResp
                    (setHeap (<[errorResp :=
                                  WithContentType (DefaultContentType (globalConfig st)) e]>
                                (heap st)) st) log
              end
          end
      | None => sendInternal ctx w r st log
      end
  end.

Definition Send (w : ResponseWriter) (r : ptr) (st : World) (log : list Call)
    : option (ResponseWriter * World * list Call) :=
  SendWithContext ctxBackground w r st log.

(** One call for each interceptor of a list, in the order of the list, each
    run in the state the previous one left and handed the code the response
    has at that moment: [InterceptSimple] when the context is nil or
    [context.Background()], [Intercept] with the context when it is any
    other context.  The relation holds when every call returns; it gives
    the calls made and the state the last one leaves. *)
Inductive Invoked (ctx : Context) (r : ptr)
    : list I -> World -> list Call -> World -> Prop :=
| invoked_none st : Invoked ctx r [] st [] st
| invoked_simple i rest st v st1 calls st' :
    ctx = ctxNil \/ ctx = ctxBackground ->
    heap st !! r = Some v ->
    InterceptSimple (implementation i) r (Code v) st = Some st1 ->
    Invoked ctx r rest st1 calls st' ->
    Invoked ctx r (i :: rest) st (calledInterceptSimple i r (Code v) :: calls) st'
| invoked_with_context i rest st v st1 calls st' :
    ctx <> ctxNil -> ctx <> ctxBackground ->
    heap st !! r = Some v ->
    Intercept (implementation i) ctx r (Code v) st = Some st1 ->
    Invoked ctx r rest st1 calls st' ->
    Invoked ctx r (i :: rest) st (calledIntercept i ctx r (Code v) :: calls) st'.

(** The header and the status line a delivery writes on a writer whose
    header is not yet written, for a response [v]. *)
Definition headed (w : ResponseWriter) (v : Response) : ResponseWriter :=
  {| Header := <["Content-Type" := ContentType v]> (Header w);
     status := Some (Code v);
     body := body w |}.

End Program.

Arguments World : clear implicits.
Arguments ResponseInterceptor : clear implicits.
Arguments Call : clear implicits.

End Live.




(** Interceptors for concrete deliveries, with a call counter as the memory
    of the program: 0 tags the module of the response and counts the call,
    1 empties the registry, 2 sets the code of the response to 202, 3 sets
    it to 1000, 4 panics, 5 replaces the process-wide configuration by one
    with a trace capacity of one; every other handle does nothing. *)
Definition bump (st : Live.World nat nat) : Live.World nat nat :=
  Live.mkWorld (Live.globalConfig st) (Live.interceptors st) (Live.heap st)
               (Live.clock st) (S (Live.memory st)).

Definition assign (f : Response -> Response) (r : ptr) (st : Live.World nat nat)
    : option (Live.World nat nat) :=
  match Live.heap st !! r with
  | Some v => Some (Live.setHeap (<[r := f v]> (Live.heap st)) st)
  | None => None
  end.

Definition sampleImplementation (i : nat) : Live.ResponseInterceptor nat nat :=
  match i with
  | 0%nat =>
      {| Live.Intercept := fun _ r _ st =>
           assign (setModule "seen-with-context") r (bump st);
         Live.InterceptSimple := fun r _ st => assign (setModule "seen") r (bump st) |}
  | 1%nat =>
      let removeAll st :=
        Some (Live.mkWorld (Live.globalConfig st) [] (Live.heap st) (Live.clock st)
                           (Live.memory st)) in
      {| Live.Intercept := fun _ _ _ st => removeAll st;
         Live.InterceptSimple := fun _ _ st => removeAll st |}
  | 2%nat =>
      {| Live.Intercept := fun _ r _ st => assign (setCode 202) r st;
         Live.InterceptSimple := fun r _ st => assign (setCode 202) r st |}
  | 3%nat =>
      {| Live.Intercept := fun _ r _ st => assign (setCode 1000) r st;
         Live.InterceptSimple := fun r _ st => assign (setCode 1000) r st |}
  | 4%nat =>
      {| Live.Intercept := fun _ _ _ _ => None;
         Live.InterceptSimple := fun _ _ _ => None |}
  | 5%nat =>
      let setConfig st :=
        Some (Live.mkWorld (fillDefaults (traceCap 1)) (Live.interceptors st)
                           (Live.heap st) (Live.clock st) (Live.memory st)) in
      {| Live.Intercept := fun _ _ _ st => setConfig st;
         Live.InterceptSimple := fun _ _ st => setConfig st |}
  | _ =>
      {| Live.Intercept := fun _ _ _ st => Some st;
         Live.InterceptSimple := fun _ _ st => Some st |}
  end.

(** A writer that takes every write, as httptest's recorder does, and one
    that fails after the first byte. *)
Definition recorder (p : string) (w : ResponseWriter) : ResponseWriter * option error :=
  (Write p w, None).

Definition brokenPipe (p : string) (w : ResponseWriter) : ResponseWriter * option error :=
  (Write (String.substring 0 1 p) w, Some (errorString "write: broken pipe")).

(** The process after [init] with the given registry and responses, and a
    call counter at zero. *)
Definition liveProcess (registry : list nat) (h : list Response)
    : Live.World nat nat :=
  Live.mkWorld defaultConfig registry h noon 0%nat.

(** * Properties *)

(** ** State plumbing *)

Lemma setTrace_same r : setTrace (Trace r) r = r.
Proof. by destruct r. Qed.

Lemma setHeap_same st : setHeap (heap st) st = st.
Proof. by destruct st. Qed.

Lemma append_empty_r (s : string) : s +:+ "" = s.
Proof.
  induction s as [|c s IH]; [reflexivity|].
  change (String c (s +:+ "") = String c s). by rewrite IH.
Qed.

Lemma method_run f p st v :
  heap st !! p = Some v ->
  method f p st = Some (p, setHeap (<[p := f (globalConfig st) v]> (heap st)) st).
Proof. intros H. unfold method. by rewrite H. Qed.

Lemma heap_lookup_updated (h : list Response) p v v' :
  h !! p = Some v -> <[p := v']> h !! p = Some v'.
Proof. intros H. apply list_lookup_insert_eq. by eapply lookup_lt_Some. Qed.

(** ** The trace buffer *)

Lemma insert_last_slot (n : nat) (m : string) (a : list string) :
  length a = n -> (1 <= n)%nat -> <[(n - 1)%nat := m]> a = take (n - 1) a ++ [m].
Proof.
  intros Hlen Hn.
  rewrite insert_take_drop by lia.
  replace (S (n - 1)) with n by lia.
  rewrite drop_ge by lia. reflexivity.
Qed.







Section CallerFacingLoop.

Variable cfg : Config.
Variable prefix : string.
Variable n : nat.
Hypothesis capacity : MaxTraceSize cfg = Z.of_nat n.
Hypothesis capacity_pos : (1 <= n)%nat.


End CallerFacingLoop.




Lemma getResponseConfig_setTrace g tr r :
  getResponseConfig g (setTrace tr r) = getResponseConfig g r.
Proof. reflexivity. Qed.





(** An entry that is no string, error or Stringer leaves the trace as it
    is, in both modes. *)
Lemma appendTrace_skips_non_text g prefix force t r :
  traceText t = None -> appendTrace g prefix force [t] r = r.
Proof.
  intros Ht. unfold appendTrace. cbn [appendTraceLoop]. rewrite Ht.
  apply setTrace_same.
Qed.

(** Below capacity an entry is appended as ["<prefix>: <text>"], in both
    modes. *)
Lemma appendTrace_below_capacity g prefix force t s r :
  traceText t = Some s ->
  Z.of_nat (length (Trace r)) < MaxTraceSize (getResponseConfig g r) ->
  Trace (appendTrace g prefix force [t] r) = Trace r ++ [prefix +:+ ": " +:+ s].
Proof.
  intros Ht Hlt. unfold appendTrace. cbn [appendTraceLoop Trace setTrace].
  rewrite Ht. cbv zeta.
  destruct (Z.ltb_spec (Z.of_nat (length (Trace r)))
                       (MaxTraceSize (getResponseConfig g r))); [reflexivity | lia].
Qed.

(** C5 (what the code does where the claim fails). In internal mode, on a
    buffer at capacity, an entry with text [s] overwrites the last slot with
    [s] alone: the prefix and the [": "] separator are not stored. *)
Theorem C5_internal_overwrite_drops_prefix :
  forall (g : Config) (prefix : string) (t : any) (s : string) (r : Response),
    traceText t = Some s ->
    0 < MaxTraceSize (getResponseConfig g r) ->
    MaxTraceSize (getResponseConfig g r) <= Z.of_nat (length (Trace r)) ->
    Trace (appendTraceInternal g prefix [t] r)
    = <[Z.to_nat (MaxTraceSize (getResponseConfig g r) - 1) := s]> (Trace r).
Proof.
  intros g prefix t s r Ht Hpos Hfull.
  unfold appendTraceInternal, appendTrace. cbn [appendTraceLoop Trace setTrace].
  rewrite Ht. cbv zeta.
  destruct (Z.ltb_spec (Z.of_nat (length (Trace r)))
                       (MaxTraceSize (getResponseConfig g r))); [lia|].
  destruct (Z.ltb_spec 0 (MaxTraceSize (getResponseConfig g r))); [|lia].
  reflexivity.
Qed.

Lemma C5_internal_overwrite_witness :
  Trace (appendTraceInternal defaultConfig "internal error"
           [anyString "encoding failed: boom"]
           (sampleResponse (traceCap 1) ["trace: a"]))
  = ["encoding failed: boom"].
Proof.
  apply (C5_internal_overwrite_drops_prefix defaultConfig "internal error"
           (anyString "encoding failed: boom") "encoding failed: boom"
           (sampleResponse (traceCap 1) ["trace: a"]));
    [reflexivity | reflexivity | cbn; lia].
Defined.

(** ** Configuration resolution *)

Lemma fillDefaults_valid c : validConfig (fillDefaults c).
Proof.
  unfold validConfig, fillDefaults; cbn.
  repeat split.
  1-3: match goal with |- context [?x <=? 0] => destruct (Z.leb_spec x 0) end; lia.
  case_bool_decide; [discriminate | assumption].
Qed.

Lemma defaultConfig_valid : validConfig defaultConfig.
Proof. unfold validConfig; cbn. repeat split; try lia. discriminate. Qed.

(** The configuration store holds a valid configuration after [SetConfig]. *)
Lemma SetConfig_valid cfg st :
  exists st', SetConfig cfg st = Some (tt, st') /\ validConfig (globalConfig st').
Proof. eexists. split; [reflexivity|]. apply fillDefaults_valid. Qed.

(** C6 (amended). [getResponseConfig] returns the override as it is, with no
    field-by-field merging, when one of its numeric fields is positive or its
    content type is not empty, and the process-wide configuration when every
    numeric field is at most zero and the content type is empty, whatever the
    size-validation toggle of the override. *)
Theorem C6_resolution_override_or_global :
  forall (g : Config) (r : Response),
    (0 < MaxTraceSize (config r) \/ 0 < ResponseSizeLimit (config r) \/
     0 < MaxInterceptorAmount (config r) \/ DefaultContentType (config r) <> "" ->
     getResponseConfig g r = config r) /\
    (MaxTraceSize (config r) <= 0 /\ ResponseSizeLimit (config r) <= 0 /\
     MaxInterceptorAmount (config r) <= 0 /\ DefaultContentType (config r) = "" ->
     getResponseConfig g r = g).
Proof.
  intros g r. unfold getResponseConfig. split.
  - intros H.
    destruct (Z.ltb_spec 0 (MaxTraceSize (config r))); [reflexivity|].
    destruct (Z.ltb_spec 0 (ResponseSizeLimit (config r))); [reflexivity|].
    destruct (Z.ltb_spec 0 (MaxInterceptorAmount (config r))); [reflexivity|].
    case_bool_decide; [|reflexivity].
    destruct H as [?|[?|[?|?]]]; try lia. contradiction.
  - intros (H1 & H2 & H3 & H4).
    destruct (Z.ltb_spec 0 (MaxTraceSize (config r))); [lia|].
    destruct (Z.ltb_spec 0 (ResponseSizeLimit (config r))); [lia|].
    destruct (Z.ltb_spec 0 (MaxInterceptorAmount (config r))); [lia|].
    case_bool_decide; [reflexivity | contradiction].
Qed.

Lemma C6_resolution_witness :
  getResponseConfig defaultConfig (sampleResponse (traceCap 5) []) = traceCap 5 /\
  getResponseConfig defaultConfig (sampleResponse toggleOnly []) = defaultConfig.
Proof.
  split.
  - apply (proj1 (C6_resolution_override_or_global defaultConfig
                    (sampleResponse (traceCap 5) []))).
    left. cbn. lia.
  - apply (proj2 (C6_resolution_override_or_global defaultConfig
                    (sampleResponse toggleOnly []))).
    cbn. repeat split; lia.
Defined.

(** C6 as stated fails: an override whose only non-zero field is negative,
    and one whose only non-zero field is the toggle, are not returned; the
    process-wide configuration is. *)
Lemma C6_nonzero_override_ignored :
  MaxTraceSize (config (sampleResponse (traceCap (-1)) [])) = -1 /\
  getResponseConfig defaultConfig (sampleResponse (traceCap (-1)) []) = defaultConfig /\
  defaultConfig <> traceCap (-1) /\
  EnableSizeValidation (config (sampleResponse toggleOnly [])) = true /\
  getResponseConfig validationOff (sampleResponse toggleOnly []) = validationOff /\
  validationOff <> toggleOnly.
Proof. repeat split; discriminate. Qed.

(** ** [WithConfig] *)

(** What the normalization of [WithConfig] (and of [SetConfig]) yields,
    field by field. *)
Lemma fillDefaults_fields cfg :
  MaxTraceSize (fillDefaults cfg)
    = (if decide (MaxTraceSize cfg <= 0) then 50 else MaxTraceSize cfg) /\
  ResponseSizeLimit (fillDefaults cfg)
    = (if decide (ResponseSizeLimit cfg <= 0) then 10485760 else ResponseSizeLimit cfg) /\
  MaxInterceptorAmount (fillDefaults cfg)
    = (if decide (MaxInterceptorAmount cfg <= 0) then 20 else MaxInterceptorAmount cfg) /\
  DefaultContentType (fillDefaults cfg)
    = (if decide (DefaultContentType cfg = "") then "application/json"
       else DefaultContentType cfg) /\
  EnableSizeValidation (fillDefaults cfg) = EnableSizeValidation cfg.
Proof.
  unfold fillDefaults; cbn. repeat split.
  1-3: match goal with |- context [?x <=? 0] => destruct (Z.leb_spec x 0) end;
       destruct (decide _); try lia; reflexivity.
  case_bool_decide; destruct (decide _); try contradiction; reflexivity.
Qed.

(** C10. [WithConfig(config)] stores in the receiver the configuration it
    is given with every non-positive number replaced by its built-in default
    (50 trace entries, 10485760 bytes, 20 interceptors), an empty content
    type replaced by ["application/json"] and the size-validation toggle as
    given.  It overwrites [ContentType] with the content type of that stored
    configuration exactly when the current [ContentType] is empty or equals
    the process-wide default content type at the time of the call; any other
    [ContentType] is left as it is, and no other field of the receiver, no
    other response and nothing of the process state changes. *)
Theorem C10_WithConfig_content_type_and_frame :
  forall (st : State) (p : ptr) (r : Response) (cfg : Config),
    heap st !! p = Some r ->
    exists r',
      method (fun g => WithConfig g cfg) p st
      = Some (p, setHeap (<[p := r']> (heap st)) st) /\
      MaxTraceSize (config r')
        = (if decide (MaxTraceSize cfg <= 0) then 50 else MaxTraceSize cfg) /\
      ResponseSizeLimit (config r')
        = (if decide (ResponseSizeLimit cfg <= 0) then 10485760
           else ResponseSizeLimit cfg) /\
      MaxInterceptorAmount (config r')
        = (if decide (MaxInterceptorAmount cfg <= 0) then 20
           else MaxInterceptorAmount cfg) /\
      DefaultContentType (config r')
        = (if decide (DefaultContentType cfg = "") then "application/json"
           else DefaultContentType cfg) /\
      EnableSizeValidation (config r') = EnableSizeValidation cfg /\
      (ContentType r = "" \/ ContentType r = DefaultContentType (globalConfig st) ->
       ContentType r'
       = (if decide (DefaultContentType cfg = "") then "application/json"
          else DefaultContentType cfg)) /\
      (ContentType r <> "" -> ContentType r <> DefaultContentType (globalConfig st) ->
       ContentType r' = ContentType r) /\
      Module_ r' = Module_ r /\ Message r' = Message r /\ Data r' = Data r /\
      Trace r' = Trace r /\ Timestamp r' = Timestamp r /\
      PaginationData r' = PaginationData r /\ Code r' = Code r /\
      TracePrefix r' = TracePrefix r.
Proof.
  intros st p r cfg Hp.
  exists (WithConfig (globalConfig st) cfg r).
  split; [exact (method_run (fun g => WithConfig g cfg) p st r Hp)|].
  destruct (fillDefaults_fields cfg) as (F1 & F2 & F3 & F4 & F5).
  assert (Hcfg : config (WithConfig (globalConfig st) cfg r) = fillDefaults cfg).
  { unfold WithConfig. cbv zeta. by destruct (_ || _). }
  rewrite Hcfg, <- F4.
  repeat (split; [assumption|]).
  unfold WithConfig. cbn [ContentType setConfigField].
  destruct (bool_decide (ContentType r = "")) eqn:E1;
    destruct (bool_decide (ContentType r = DefaultContentType (globalConfig st))) eqn:E2;
    cbn; repeat split; try reflexivity; intros;
    try (apply bool_decide_eq_true in E1); try (apply bool_decide_eq_true in E2);
    try (apply bool_decide_eq_false in E1); try (apply bool_decide_eq_false in E2);
    try contradiction; try reflexivity.
  destruct H; contradiction.
Qed.

(** An override that sets the trace capacity and the content type: on a
    response that still has the process-wide default content type the
    content type becomes the override's, on a response whose content type
    was set to something else it stays; the numbers left at zero are stored
    as their defaults. *)
Lemma C10_WithConfig_witness :
  (exists r',
     method (fun g => WithConfig g (mkConfig 3 0 0 "text/plain" false)) 0%nat
            (processWith [sampleResponse zeroConfig []])
     = Some (0%nat, setHeap [r'] (processWith [sampleResponse zeroConfig []])) /\
     r' = {| Module_ := ""; Message := ""; Data := anyNil; Trace := [];
             Timestamp := noon; PaginationData := None; Code := 404;
             ContentType := "text/plain"; TracePrefix := "";
             config := mkConfig 3 10485760 20 "text/plain" false |}) /\
  (exists r',
     method (fun g => WithConfig g (mkConfig 0 4096 0 "" true)) 0%nat
            (processWith [WithContentType "text/html" (sampleResponse zeroConfig [])])
     = Some (0%nat,
             setHeap [r']
               (processWith [WithContentType "text/html" (sampleResponse zeroConfig [])])) /\
     r' = {| Module_ := ""; Message := ""; Data := anyNil; Trace := [];
             Timestamp := noon; PaginationData := None; Code := 404;
             ContentType := "text/html"; TracePrefix := "";
             config := mkConfig 50 4096 20 "application/json" true |}).
Proof.
  split.
  - destruct (C10_WithConfig_content_type_and_frame
                (processWith [sampleResponse zeroConfig []]) 0%nat
                (sampleResponse zeroConfig []) (mkConfig 3 0 0 "text/plain" false)
                eq_refl)
      as (r' & Hrun & K1 & K2 & K3 & K4 & K5 & Hset & _ & F).
    exists r'. split; [exact Hrun|].
    specialize (Hset (or_intror eq_refl)).
    destruct r' as [m msg d tr ts pg c ct tp [c1 c2 c3 c4 c5]].
    cbn in *. destruct F as (-> & -> & -> & -> & -> & -> & -> & ->).
    by subst.
  - destruct (C10_WithConfig_content_type_and_frame
                (processWith [WithContentType "text/html" (sampleResponse zeroConfig [])])
                0%nat (WithContentType "text/html" (sampleResponse zeroConfig []))
                (mkConfig 0 4096 0 "" true) eq_refl)
      as (r' & Hrun & K1 & K2 & K3 & K4 & K5 & _ & Hkeep & F).
    exists r'. split; [exact Hrun|].
    specialize (Hkeep ltac:(discriminate) ltac:(discriminate)).
    destruct r' as [m msg d tr ts pg c ct tp [c1 c2 c3 c4 c5]].
    cbn in *. destruct F as (-> & -> & -> & -> & -> & -> & -> & ->).
    by subst.
Defined.

(** ** [WithCode] *)

Lemma validateStatusCode_invalid code :
  code < 100 \/ 599 < code -> validateStatusCode code = Some (StatusCodeError code).
Proof.
  intros H. unfold validateStatusCode.
  destruct (Z.ltb_spec code 100); [reflexivity|].
  destruct (Z.gtb_spec code 599); [reflexivity | lia].
Qed.

Lemma validateStatusCode_valid code :
  100 <= code <= 599 -> validateStatusCode code = None.
Proof.
  intros H. unfold validateStatusCode.
  destruct (Z.ltb_spec code 100); [lia|].
  destruct (Z.gtb_spec code 599); [lia | reflexivity].
Qed.

Lemma getResponseConfig_zero g r :
  config r = zeroConfig -> getResponseConfig g r = g.
Proof. intros H. unfold getResponseConfig. rewrite H. reflexivity. Qed.

Lemma WithCode_invalid_run st p code :
  0 < MaxTraceSize (globalConfig st) ->
  code < 100 \/ 599 < code ->
  WithCode code p st
  = Some (length (heap st), setHeap (heap st ++ [invalidCodeResponse st code]) st).
Proof.
  intros Hcap Hcode. unfold WithCode.
  rewrite validateStatusCode_invalid by assumption.
  unfold bind, InternalServerError, newBaseResponse, new, method.
  cbn [heap setHeap globalConfig].
  rewrite list_lookup_middle by reflexivity.
  f_equal. f_equal. unfold setHeap; cbn. f_equal.
  rewrite insert_app_r_alt by lia.
  replace (length (heap st) - length (heap st))%nat with 0%nat by lia.
  cbn [insert list_insert]. f_equal. f_equal.
  unfold appendTraceInternal, appendTrace.
  rewrite getResponseConfig_zero by reflexivity.
  cbn [appendTraceLoop traceText Trace length]. cbv zeta.
  destruct (Z.ltb_spec (Z.of_nat 0) (MaxTraceSize (globalConfig st))); [|lia].
  reflexivity.
Qed.

Lemma WithCode_valid_run st p r code :
  heap st !! p = Some r ->
  100 <= code <= 599 ->
  WithCode code p st = Some (p, setHeap (<[p := setCode code r]> (heap st)) st).
Proof.
  intros Hp Hcode. unfold WithCode.
  rewrite validateStatusCode_valid by assumption.
  exact (method_run (fun _ => setCode code) p st r Hp).
Qed.

(** C9. For a code outside [100, 599], [WithCode] leaves the receiver as it
    is and returns a newly allocated response: code 500, message
    ["Invalid status code set"], a trace of exactly one status-code-invalid
    entry, the process-wide default content type, the creation time, and no
    module, data, pagination, trace prefix or per-instance configuration.
    Nothing of the receiver is carried over. *)
Theorem C9_WithCode_invalid_returns_fresh_response :
  forall (st : State) (p : ptr) (r : Response) (code : Z),
    heap st !! p = Some r ->
    0 < MaxTraceSize (globalConfig st) ->
    code < 100 \/ 599 < code ->
    exists q st',
      WithCode code p st = Some (q, st') /\
      q <> p /\
      heap st !! q = None /\
      heap st' !! p = Some r /\
      heap st' !! q =
        Some {| Module_ := ""; Message := "Invalid status code set"; Data := anyNil;
                Trace := ["error: invalid HTTP status code: " +:+ pretty code];
                Timestamp := clock st; PaginationData := None; Code := 500;
                ContentType := DefaultContentType (globalConfig st);
                TracePrefix := ""; config := zeroConfig |} /\
      length (heap st') = S (length (heap st)) /\
      globalConfig st' = globalConfig st /\ interceptors st' = interceptors st.
Proof.
  intros st p r code Hp Hcap Hcode.
  exists (length (heap st)), (setHeap (heap st ++ [invalidCodeResponse st code]) st).
  pose proof (lookup_lt_Some _ _ _ Hp) as Hlt.
  split; [by apply WithCode_invalid_run|].
  split; [lia|].
  split; [by apply lookup_ge_None_2|].
  cbn [heap setHeap globalConfig interceptors].
  split; [by rewrite lookup_app_l|].
  split; [by rewrite list_lookup_middle|].
  split; [rewrite length_app; simpl; lia|].
  split; reflexivity.
Qed.

Lemma C9_WithCode_invalid_witness :
  exists q st',
    WithCode 700 0%nat (processWith [sampleResponse (traceCap 2) ["trace: a"]])
    = Some (q, st') /\
    q <> 0%nat /\
    ([sampleResponse (traceCap 2) ["trace: a"]] : list Response) !! q = None /\
    heap st' !! 0%nat = Some (sampleResponse (traceCap 2) ["trace: a"]) /\
    heap st' !! q =
      Some {| Module_ := ""; Message := "Invalid status code set"; Data := anyNil;
              Trace := ["error: invalid HTTP status code: " +:+ pretty 700];
              Timestamp := noon; PaginationData := None; Code := 500;
              ContentType := "application/json";
              TracePrefix := ""; config := zeroConfig |} /\
    length (heap st') = 2%nat /\
    globalConfig st' = defaultConfig /\ interceptors st' = [].
Proof.
  apply (C9_WithCode_invalid_returns_fresh_response
           (processWith [sampleResponse (traceCap 2) ["trace: a"]]) 0%nat
           (sampleResponse (traceCap 2) ["trace: a"]) 700);
    [reflexivity | cbn; lia | right; lia].
Defined.

(** C2 (amended). For a code outside [100, 599], [WithCode] returns a
    different, newly allocated response in the internal-error state (code
    500) whose trace is the status-code-invalid diagnostic, and the receiver
    itself is not modified: the chain that continues on the returned value
    operates on the new response.  For a code in [100, 599] it sets the
    receiver's code, adds no diagnostic and returns the receiver. *)
Theorem C2_WithCode_returns_error_response_or_sets_code :
  forall (st : State) (p : ptr) (r : Response) (code : Z),
    heap st !! p = Some r ->
    0 < MaxTraceSize (globalConfig st) ->
    (code < 100 \/ 599 < code ->
     exists q st' e,
       WithCode code p st = Some (q, st') /\
       q <> p /\ heap st' !! p = Some r /\ heap st' !! q = Some e /\
       Code e = 500 /\
       Trace e = ["error: " +:+ Error (StatusCodeError code)]) /\
    (100 <= code <= 599 ->
     exists st' r',
       WithCode code p st = Some (p, st') /\
       heap st' !! p = Some r' /\
       Code r' = code /\ Trace r' = Trace r).
Proof.
  intros st p r code Hp Hcap. split.
  - intros Hcode.
    pose proof (lookup_lt_Some _ _ _ Hp) as Hlt.
    exists (length (heap st)),
           (setHeap (heap st ++ [invalidCodeResponse st code]) st),
           (invalidCodeResponse st code).
    split; [by apply WithCode_invalid_run|].
    split; [lia|]. cbn [heap setHeap].
    split; [by rewrite lookup_app_l|].
    split; [by rewrite list_lookup_middle|].
    split; reflexivity.
  - intros Hcode.
    exists (setHeap (<[p := setCode code r]> (heap st)) st), (setCode code r).
    split; [by apply WithCode_valid_run|].
    split; [cbn; by eapply heap_lookup_updated|].
    split; reflexivity.
Qed.

Lemma C2_WithCode_witness :
  (exists q st' e,
     WithCode 700 0%nat (processWith [sampleResponse zeroConfig []]) = Some (q, st') /\
     q <> 0%nat /\ heap st' !! 0%nat = Some (sampleResponse zeroConfig []) /\
     heap st' !! q = Some e /\ Code e = 500 /\
     Trace e = ["error: " +:+ Error (StatusCodeError 700)]) /\
  (exists st' r',
     WithCode 404 0%nat (processWith [sampleResponse zeroConfig []]) = Some (0%nat, st') /\
     heap st' !! 0%nat = Some r' /\ Code r' = 404 /\ Trace r' = []).
Proof.
  split.
  - apply (proj1 (C2_WithCode_returns_error_response_or_sets_code
                    (processWith [sampleResponse zeroConfig []]) 0%nat
                    (sampleResponse zeroConfig []) 700 eq_refl eq_refl)).
    right. lia.
  - apply (proj2 (C2_WithCode_returns_error_response_or_sets_code
                    (processWith [sampleResponse zeroConfig []]) 0%nat
                    (sampleResponse zeroConfig []) 404 eq_refl eq_refl)).
    lia.
Defined.

(** C2 as stated fails: after [r.WithCode(700)] on a not-found response, the
    instance [r] (pointer 0) is what it was, code 404 and an empty trace; the
    internal-error state lives in another instance (pointer 1). *)
Lemma C2_receiver_not_replaced_in_place :
  (fun '(q, st') => (q, heap st' !! 0%nat, Code <$> heap st' !! q))
    <$> WithCode 700 0%nat (processWith [sampleResponse zeroConfig []])
  = Some (1%nat, Some (sampleResponse zeroConfig []), Some 500) /\
  Code (sampleResponse zeroConfig []) = 404 /\
  Trace (sampleResponse zeroConfig []) = [].
Proof. repeat split. Qed.

(** ** Delivery *)

Section DeliveryProperties.

Variable json_Marshal : Wire -> string + error.
Variable jsonv2_Marshal : Wire -> string + error.

Lemma estimateSize_run v :
  estimateSize jsonv2_Marshal v
  = match jsonv2_Marshal (wire v) with
    | inl p => (Z.of_nat (String.length p), None)
    | inr err => (0, Some err)
    end.
Proof.
  unfold estimateSize, Encode. destruct (jsonv2_Marshal (wire v)); reflexivity.
Qed.

(** The loop calls each interceptor of the snapshot once, in order, with
    the capability the context selects, and touches nothing but the
    response it is handed. *)
Lemma runInterceptors_run ctx cur : forall p st v,
  heap st !! p = Some v ->
  exists st' v' new,
    runInterceptors ctx cur p st = Some (tt, st') /\
    heap st' = <[p := v']> (heap st) /\
    globalConfig st' = globalConfig st /\
    interceptors st' = interceptors st /\
    clock st' = clock st /\
    calls st' = calls st ++ new /\
    callee <$> new = cur /\
    Forall (capabilityFor ctx) new.
Proof.
  induction cur as [|i rest IH]; intros p st v Hp.
  - exists st, v, []. cbn. rewrite app_nil_r, list_insert_id by assumption.
    repeat split; constructor.
  - cbn [runInterceptors]. rewrite Hp.
    set (st1 := if requestScoped ctx then _ else _).
    assert (H1 : exists v1 c,
               st1 = logCall c (setHeap (<[p := v1]> (heap st)) st) /\
               callee c = i /\ capabilityFor ctx c).
    { subst st1. destruct (requestScoped ctx) eqn:Ectx.
      - eexists _, _. split; [reflexivity|]. by cbn.
      - eexists _, _. split; [reflexivity|]. by cbn. }
    destruct H1 as (v1 & c & -> & Hc & Hcap).
    destruct (IH p (logCall c (setHeap (<[p := v1]> (heap st)) st)) v1)
      as (st' & v' & new & Hrun & Hheap & Hg & Hi & Hclk & Hcalls & Hcallee & Hall).
    { cbn. by eapply heap_lookup_updated. }
    exists st', v', (c :: new). split; [exact Hrun|].
    cbn in Hheap, Hg, Hi, Hclk, Hcalls.
    rewrite list_insert_insert_eq in Hheap.
    repeat split; try assumption.
    + rewrite Hcalls. by rewrite <- app_assoc.
    + cbn. by rewrite Hc, Hcallee.
    + by constructor.
Qed.

(** [sendInternal] after its interceptor loop. *)
Lemma sendInternal_run ctx w p st v :
  heap st !! p = Some v ->
  exists st1 v1 new,
    runInterceptors ctx (interceptors st) p st = Some (tt, st1) /\
    heap st1 = <[p := v1]> (heap st) /\
    calls st1 = calls st ++ new /\
    callee <$> new = interceptors st /\
    Forall (capabilityFor ctx) new /\
    exists st',
      sendInternal json_Marshal ctx w p st
      = Some (Write (emitted (json_Marshal (wire v1)))
                (WriteHeader (Code v1) (HeaderSet "Content-Type" (ContentType v1) w)),
              st') /\
      calls st' = calls st1 /\ length (heap st') = length (heap st) /\
      globalConfig st' = globalConfig st /\ interceptors st' = interceptors st.
Proof.
  intros Hp.
  destruct (runInterceptors_run ctx (interceptors st) p st v Hp)
    as (st1 & v1 & new & Hrun & Hheap & Hg & Hi & Hclk & Hcalls & Hcallee & Hall).
  exists st1, v1, new. repeat (split; [assumption|]).
  assert (Hp1 : heap st1 !! p = Some v1).
  { rewrite Hheap. by eapply heap_lookup_updated. }
  unfold sendInternal, bind, GetInterceptors. rewrite Hrun, Hp1.
  unfold Encode. destruct (json_Marshal (wire v1)) as [b|err]; cbn [emitted].
  - exists st1. split; [reflexivity|].
    rewrite Hheap, length_insert. by repeat split.
  - rewrite (method_run _ _ _ v1) by assumption. unfold ret.
    eexists. split.
    + f_equal. f_equal. unfold Write, ResponseWriter_Writer. cbn.
      destruct w; cbn. f_equal. by rewrite append_empty_r.
    + cbn. rewrite length_insert, Hheap, length_insert. by repeat split.
Qed.

End DeliveryProperties.

Lemma AddTrace_first_entry g s r :
  TracePrefix r = "" -> Trace r = [] ->
  0 < MaxTraceSize (getResponseConfig g r) ->
  AddTrace g [anyString s] r = setTrace ["trace: " +:+ s] r.
Proof.
  intros Hpre Htr Hcap. unfold AddTrace. rewrite Hpre.
  rewrite bool_decide_eq_true_2 by reflexivity.
  unfold appendTrace. rewrite Htr.
  cbn [appendTraceLoop traceText]. cbv zeta.
  change (Z.of_nat (length [])) with 0.
  destruct (Z.ltb_spec 0 (MaxTraceSize (getResponseConfig g r))); [|lia].
  reflexivity.
Qed.

Lemma AddPrefixedTrace_first_entry g prefix s r :
  prefix <> "" -> Trace r = [] ->
  0 < MaxTraceSize (getResponseConfig g r) ->
  AddPrefixedTrace g prefix [anyString s] r = setTrace [prefix +:+ ": " +:+ s] r.
Proof.
  intros Hpre Htr Hcap. unfold AddPrefixedTrace.
  rewrite bool_decide_eq_false_2 by assumption.
  unfold appendTrace. rewrite Htr.
  cbn [appendTraceLoop traceText]. cbv zeta.
  change (Z.of_nat (length [])) with 0.
  destruct (Z.ltb_spec 0 (MaxTraceSize (getResponseConfig g r))); [|lia].
  reflexivity.
Qed.

Section DeliveryClaims.

Variable json_Marshal : Wire -> string + error.
Variable jsonv2_Marshal : Wire -> string + error.

Lemma sendInternal_no_interceptors ctx w p st v :
  heap st !! p = Some v ->
  interceptors st = [] ->
  exists st',
    sendInternal json_Marshal ctx w p st
    = Some (Write (emitted (json_Marshal (wire v)))
              (WriteHeader (Code v) (HeaderSet "Content-Type" (ContentType v) w)),
            st') /\
    length (heap st') = length (heap st) /\
    globalConfig st' = globalConfig st.
Proof.
  intros Hp Hnone.
  destruct (sendInternal_run json_Marshal ctx w p st v Hp)
    as (st1 & v1 & new & Hrun & Hheap & _ & _ & _ & st' & Hsend & _ & Hlen & Hg & _).
  rewrite Hnone in Hrun. cbn in Hrun. injection Hrun as <-.
  assert (v1 = v) as ->.
  { pose proof (lookup_lt_Some _ _ _ Hp) as Hlt.
    rewrite Hheap in Hp.
    rewrite list_lookup_insert_eq in Hp by exact Hlt.
    by injection Hp. }
  exists st'. by repeat split.
Qed.

(** The failure branch of [SendWithContext]: [r.WithCode(500)] is a valid
    code, so [errorResp] is the receiver itself. *)
Lemma SendWithContext_failure_run ctx w p st v err :
  heap st !! p = Some v ->
  validateResponseSize jsonv2_Marshal (globalConfig st) v = Some err ->
  SendWithContext json_Marshal jsonv2_Marshal ctx w p st
  = sendInternal json_Marshal ctx w p
      (setHeap (<[p := setContentType (DefaultContentType (globalConfig st))
                         (setCode StatusInternalServerError v)]> (heap st)) st).
Proof.
  intros Hp Herr. unfold SendWithContext. rewrite Hp, Herr. unfold bind.
  rewrite (WithCode_valid_run st p v) by (assumption || (cbv; split; discriminate)).
  unfold getConfig.
  rewrite (method_run _ _ _ (setCode StatusInternalServerError v))
    by (cbn; by eapply heap_lookup_updated).
  cbn [heap setHeap globalConfig]. rewrite list_insert_insert_eq.
  reflexivity.
Qed.

(** C1 (what the code does where the claim fails). When the size check of
    a response fails, [SendWithContext] sets the code of that same response
    to 500 and its content type to the process-wide default and serializes
    it: the status is 500, the body is the encoding of the original
    response's module, message, data, trace, timestamp and pagination with
    code 500, and no response is allocated. *)
Theorem C1_oversized_response_is_serialized_with_code_500 :
  forall (st : State) (ctx : Context) (w : ResponseWriter) (p : ptr)
         (v : Response) (err : error),
    heap st !! p = Some v ->
    validateResponseSize jsonv2_Marshal (globalConfig st) v = Some err ->
    interceptors st = [] ->
    status w = None ->
    exists w' st',
      SendWithContext json_Marshal jsonv2_Marshal ctx w p st = Some (w', st') /\
      status w' = Some 500 /\
      Header w' !! "Content-Type" = Some (DefaultContentType (globalConfig st)) /\
      body w' = body w +:+
                emitted (json_Marshal
                  {| jModule := Module_ v; jMessage := Message v; jData := Data v;
                     jTrace := Trace v; jTimestamp := Timestamp v;
                     jPagination := PaginationData v; jCode := 500 |}) /\
      length (heap st') = length (heap st).
Proof.
  intros st ctx w p v err Hp Herr Hnone Hw.
  rewrite (SendWithContext_failure_run ctx w p st v err) by assumption.
  set (v2 := setContentType _ _). set (st2 := setHeap _ st).
  destruct (sendInternal_no_interceptors ctx w p st2 v2)
    as (st' & Hsend & Hlen & _).
  { subst st2. cbn. by eapply heap_lookup_updated. }
  { exact Hnone. }
  eexists _, st'. split; [exact Hsend|].
  cbn [status body Header Write ResponseWriter_Writer WriteHeader HeaderSet].
  rewrite Hw. split; [reflexivity|].
  split; [by rewrite lookup_insert_eq|].
  split; [reflexivity|].
  rewrite Hlen. subst st2. cbn. by rewrite length_insert.
Qed.

(** C7. A not-found response with message ["missing"] and the trace entry
    ["lookup: id=42"], attached by the caller-facing append
    [AddPrefixedTrace("lookup", "id=42")], delivered by [Send] on a new
    writer with size validation disabled and no interceptors registered,
    emits status 404 and the encoding of an envelope whose message is
    ["missing"] and whose trace is [["lookup: id=42"]]. *)
Theorem C7_not_found_end_to_end :
  forall (st : State),
    EnableSizeValidation (globalConfig st) = false ->
    0 < MaxTraceSize (globalConfig st) ->
    interceptors st = [] ->
    exists w' st',
      notFoundProgram json_Marshal jsonv2_Marshal newResponseWriter st
      = Some (w', st') /\
      status w' = Some 404 /\
      Header w' !! "Content-Type" = Some (DefaultContentType (globalConfig st)) /\
      body w' = emitted (json_Marshal
                  {| jModule := ""; jMessage := "missing"; jData := anyNil;
                     jTrace := ["lookup: id=42"]; jTimestamp := clock st;
                     jPagination := None; jCode := 404 |}).
Proof.
  intros st Hoff Hcap Hnone.
  unfold notFoundProgram, bind, NotFound, newBaseResponse, new.
  set (r0 := mkResponse _ _ _ _ _ _ _ _ _ _).
  set (st0 := setHeap (heap st ++ [r0]) st).
  assert (H0 : heap st0 !! length (heap st) = Some r0).
  { subst st0. cbn. by rewrite list_lookup_middle. }
  rewrite (method_run _ _ _ r0) by assumption.
  set (st1 := setHeap _ st0).
  assert (H1 : heap st1 !! length (heap st) = Some (WithMsg "missing" r0)).
  { subst st1. cbn. by eapply heap_lookup_updated. }
  rewrite (method_run _ _ _ (WithMsg "missing" r0)) by assumption.
  assert (Hr2 : AddPrefixedTrace (globalConfig st1) "lookup" [anyString "id=42"]
                  (WithMsg "missing" r0)
                = setTrace ["lookup: id=42"] (WithMsg "missing" r0)).
  { apply AddPrefixedTrace_first_entry; [discriminate | reflexivity |].
    rewrite getResponseConfig_zero by reflexivity. exact Hcap. }
  rewrite Hr2.
  set (r2 := setTrace _ _). set (st2 := setHeap _ st1).
  assert (H2 : heap st2 !! length (heap st) = Some r2).
  { subst st2. cbn. by eapply heap_lookup_updated. }
  assert (Hv : validateResponseSize jsonv2_Marshal (globalConfig st2) r2 = None).
  { unfold validateResponseSize.
    rewrite getResponseConfig_zero by reflexivity.
    change (globalConfig st2) with (globalConfig st). by rewrite Hoff. }
  destruct (sendInternal_no_interceptors ctxBackground newResponseWriter
              (length (heap st)) st2 r2 H2 Hnone) as (st' & Hsend & _).
  eexists _, st'. split.
  { unfold Send, SendWithContext. rewrite H2, Hv. exact Hsend. }
  cbn [status body Header Write ResponseWriter_Writer WriteHeader HeaderSet
       newResponseWriter].
  split; [reflexivity|].
  split; [by rewrite lookup_insert_eq|].
  reflexivity.
Qed.

End DeliveryClaims.

(** ** The delivery properties at concrete inputs *)

(** The calls of one delivery with a request context, and of one without. *)
Example delivery_calls_with_context :
  (fun '(_, st') => calls st')
    <$> SendWithContext sampleMarshal sampleMarshalCompact (ctxRequest 1)
          newResponseWriter 0%nat observedProcess
  = Some [calledIntercept taggingInterceptor (ctxRequest 1) 404;
          calledIntercept idleInterceptor (ctxRequest 1) 404].
Proof. reflexivity. Qed.

Example delivery_calls_without_context :
  (fun '(_, st') => calls st')
    <$> Send sampleMarshal sampleMarshalCompact newResponseWriter 0%nat observedProcess
  = Some [calledInterceptSimple taggingInterceptor 404;
          calledInterceptSimple idleInterceptor 404].
Proof. reflexivity. Qed.

(** The failing input of C1: a response of 136 bytes under a limit of 10.
    What is sent is that response with code 500; its content type
    ["text/plain"] is replaced by the process-wide default. *)
Lemma C1_oversized_response_witness :
  exists w' st',
    SendWithContext sampleMarshal sampleMarshalCompact ctxBackground
      newResponseWriter 0%nat (processWith [oversized]) = Some (w', st') /\
    status w' = Some 500 /\
    Header w' !! "Content-Type" = Some "application/json" /\
    body w' =
      jsonObject [member "module" (quoted "billing");
                  member "message" (quoted "a message longer than ten bytes");
                  member "trace" ("[" +:+ quoted "trace: step 1" +:+ "]");
                  member "timestamp" (quoted "2024-05-01T12:00:00Z");
                  member "code" "500"] +:+ newline /\
    length (heap st') = 1%nat.
Proof.
  exact (C1_oversized_response_is_serialized_with_code_500
           sampleMarshal sampleMarshalCompact
           (processWith [oversized]) ctxBackground newResponseWriter 0%nat
           oversized (SizeLimitError 136 10) eq_refl eq_refl eq_refl eq_refl).
Defined.

Lemma C7_not_found_witness :
  exists w' st',
    notFoundProgram sampleMarshal sampleMarshalCompact newResponseWriter unguardedProcess
    = Some (w', st') /\
    status w' = Some 404 /\
    Header w' !! "Content-Type" = Some "application/json" /\
    body w' =
      jsonObject [member "message" (quoted "missing");
                  member "trace" ("[" +:+ quoted "lookup: id=42" +:+ "]");
                  member "timestamp" (quoted "2024-05-01T12:00:00Z");
                  member "code" "404"] +:+ newline.
Proof.
  exact (C7_not_found_end_to_end sampleMarshal sampleMarshalCompact
           unguardedProcess eq_refl eq_refl eq_refl).
Defined.

(** The entry ["lookup: id=42"] is what a caller-facing append under the
    prefix ["lookup"] stores for the text ["id=42"]. *)
Example prefixed_append_stores_prefix_and_text :
  Trace (AddPrefixedTrace defaultConfig "lookup" [anyString "id=42"]
           (sampleResponse zeroConfig []))
  = ["lookup: id=42"].
Proof. reflexivity. Qed.

(** ** Delivery with the caller's code *)

Section LiveDelivery.

Context {Mem I : Type}.
Variable implementation : I -> Live.ResponseInterceptor Mem I.
Variable json_Marshal : Wire -> string + error.
Variable jsonv2_Marshal : Wire -> string + error.
Variable transport : string -> ResponseWriter -> ResponseWriter * option error.

Lemma requestScoped_true ctx :
  requestScoped ctx = true <-> ctx <> ctxNil /\ ctx <> ctxBackground.
Proof. destruct ctx; cbn; split; try discriminate; try (intros [? ?]; congruence); by split. Qed.

Lemma requestScoped_false ctx :
  requestScoped ctx = false <-> ctx = ctxNil \/ ctx = ctxBackground.
Proof.
  destruct ctx; cbn; split; try discriminate; try (intros [?|?]; discriminate); auto.
Qed.

(** The loop returns exactly when every call returns, and then it has made
    the calls of [Live.Invoked]. *)
Lemma runInterceptors_Invoked ctx r l : forall st log st' log',
  Live.runInterceptors implementation ctx l r st log = Some (st', log') <->
  exists new, Live.Invoked implementation ctx r l st new st' /\ log' = log ++ new.
Proof.
  induction l as [|i rest IH]; intros st log st' log'; split.
  - cbn. intros [= <- <-]. exists []. split; [constructor | by rewrite app_nil_r].
  - intros (new & Hinv & ->). inversion Hinv; subst. cbn. by rewrite app_nil_r.
  - cbn [Live.runInterceptors].
    destruct (Live.heap st !! r) as [v|] eqn:Hr; [|discriminate].
    destruct (requestScoped ctx) eqn:Ectx.
    + destruct (Live.Intercept _ _ _ _ _) as [st1|] eqn:Hcall; [|discriminate].
      intros H. apply IH in H as (new & Hinv & ->).
      apply requestScoped_true in Ectx as [Hn Hb].
      eexists (_ :: new). split.
      * by eapply Live.invoked_with_context.
      * by rewrite <- app_assoc.
    + destruct (Live.InterceptSimple _ _ _ _) as [st1|] eqn:Hcall; [|discriminate].
      intros H. apply IH in H as (new & Hinv & ->).
      apply requestScoped_false in Ectx.
      eexists (_ :: new). split.
      * by eapply Live.invoked_simple.
      * by rewrite <- app_assoc.
  - intros (new & Hinv & ->).
    inversion Hinv as [|? ? ? v st1 calls ? Hctx Hr Hcall Hrest
                       |? ? ? v st1 calls ? Hn Hb Hr Hcall Hrest]; subst.
    + cbn [Live.runInterceptors]. rewrite Hr.
      apply requestScoped_false in Hctx. rewrite Hctx, Hcall.
      apply IH. exists calls. split; [assumption|]. by rewrite <- app_assoc.
    + cbn [Live.runInterceptors]. rewrite Hr.
      rewrite (proj2 (requestScoped_true ctx) (conj Hn Hb)), Hcall.
      apply IH. exists calls. split; [assumption|]. by rewrite <- app_assoc.
Qed.

(** The calls of [Live.Invoked] are one for each interceptor, in order, all
    of the capability the context selects. *)
Lemma Invoked_calls ctx r l st new st' :
  Live.Invoked implementation ctx r l st new st' ->
  Live.callee <$> new = l /\
  (ctx = ctxNil \/ ctx = ctxBackground ->
   Forall (fun c => exists i code, c = Live.calledInterceptSimple i r code) new) /\
  (ctx <> ctxNil -> ctx <> ctxBackground ->
   Forall (fun c => exists i code, c = Live.calledIntercept i ctx r code) new).
Proof.
  induction 1 as [|i rest st v st1 calls st' Hctx Hr Hcall Hrest (IH1 & IH2 & IH3)
                  |i rest st v st1 calls st' Hn Hb Hr Hcall Hrest (IH1 & IH2 & IH3)].
  - repeat split; constructor.
  - split; [cbn; by rewrite IH1|]. split.
    + intros H. constructor; [by eexists _, _ | by apply IH2].
    + intros Hn Hb. destruct Hctx; contradiction.
  - split; [cbn; by rewrite IH1|]. split.
    + intros [?|?]; contradiction.
    + intros _ _. constructor; [by eexists _, _ | by apply IH3].
Qed.

(** [Live.SendWithContext] is [Live.sendInternal] on the receiver after the
    size guard: [r.WithCode(500)] is a valid code, so [errorResp] is the
    receiver itself. *)
Lemma Live_SendWithContext_guarded ctx w r st log v :
  Live.heap st !! r = Some v ->
  Live.SendWithContext implementation json_Marshal jsonv2_Marshal transport ctx w r st log
  = Live.sendInternal implementation json_Marshal transport ctx w r
      (Live.setHeap (<[r := guarded jsonv2_Marshal (Live.globalConfig st) v]>
                       (Live.heap st)) st) log.
Proof.
  intros Hr. unfold Live.SendWithContext, guarded. rewrite Hr.
  destruct (validateResponseSize jsonv2_Marshal (Live.globalConfig st) v) as [err|].
  - unfold Live.WithCode.
    change (validateStatusCode StatusInternalServerError) with (@None error).
    rewrite Hr. cbn [Live.heap Live.setHeap Live.globalConfig].
    rewrite (heap_lookup_updated _ _ v) by assumption.
    rewrite list_insert_insert_eq. reflexivity.
  - rewrite list_insert_id by assumption. by destruct st.
Qed.

(** What the delivery leaves of the response and of the state once the
    writer has taken, or refused, the encoding. *)
Lemma Live_sendInternal_inv ctx w r st log w' st' log' :
  Live.sendInternal implementation json_Marshal transport ctx w r st log
  = Some (w', st', log') ->
  exists new st1 v1 w1,
    Live.Invoked implementation ctx r (Live.interceptors st) st new st1 /\
    log' = log ++ new /\
    Live.heap st1 !! r = Some v1 /\
    Live.WriteHeader (Code v1) (HeaderSet "Content-Type" (ContentType v1) w) = Some w1 /\
    ((Live.Encode json_Marshal transport w1 v1 = (w', None) /\ st' = st1) \/
     (exists err,
        Live.Encode json_Marshal transport w1 v1 = (w', Some err) /\
        st' = Live.setHeap
                (<[r := appendTraceInternal (Live.globalConfig st1) "internal error"
                          [anyString (Error (EncodingError err))] v1]> (Live.heap st1))
                st1)).
Proof.
  unfold Live.sendInternal.
  destruct (Live.runInterceptors _ _ _ _ _ _) as [[st1 log1]|] eqn:Hrun; [|discriminate].
  apply runInterceptors_Invoked in Hrun as (new & Hinv & ->).
  destruct (Live.heap st1 !! r) as [v1|] eqn:Hr; [|discriminate].
  destruct (Live.WriteHeader _ _) as [w1|] eqn:Hw; [|discriminate].
  destruct (Live.Encode _ _ _ _) as [w2 [err|]] eqn:He; intros [= <- <- <-];
    exists new, st1, v1, w1; repeat (split; [done|]).
  - right. by exists err.
  - by left.
Qed.

Lemma Live_sendInternal_returns ctx w r st log new st1 v1 w1 :
  Live.Invoked implementation ctx r (Live.interceptors st) st new st1 ->
  Live.heap st1 !! r = Some v1 ->
  Live.WriteHeader (Code v1) (HeaderSet "Content-Type" (ContentType v1) w) = Some w1 ->
  Live.sendInternal implementation json_Marshal transport ctx w r st log
  = Some (match Live.Encode json_Marshal transport w1 v1 with
          | (w2, Some err) =>
              (w2,
               Live.setHeap
                 (<[r := appendTraceInternal (Live.globalConfig st1) "internal error"
                           [anyString (Error (EncodingError err))] v1]> (Live.heap st1))
                 st1,
               log ++ new)
          | (w2, None) => (w2, st1, log ++ new)
          end).
Proof.
  intros Hinv Hr Hw. unfold Live.sendInternal.
  rewrite (proj2 (runInterceptors_Invoked ctx r _ st log st1 (log ++ new)))
    by (by exists new).
  rewrite Hr, Hw. by destruct (Live.Encode _ _ _ _) as [w2 [err|]].
Qed.

Lemma Live_sendInternal_panics ctx w r st log new st1 v1 :
  Live.Invoked implementation ctx r (Live.interceptors st) st new st1 ->
  Live.heap st1 !! r = Some v1 ->
  Live.WriteHeader (Code v1) (HeaderSet "Content-Type" (ContentType v1) w) = None ->
  Live.sendInternal implementation json_Marshal transport ctx w r st log = None.
Proof.
  intros Hinv Hr Hw. unfold Live.sendInternal.
  rewrite (proj2 (runInterceptors_Invoked ctx r _ st log st1 (log ++ new)))
    by (by exists new).
  by rewrite Hr, Hw.
Qed.

Lemma Live_WriteHeader_fresh code key value w :
  status w = None -> 100 <= code <= 999 ->
  Live.WriteHeader code (HeaderSet key value w)
  = Some {| Header := <[key := value]> (Header w); status := Some code; body := body w |}.
Proof.
  intros Hw Hc. unfold Live.WriteHeader, HeaderSet. cbn. rewrite Hw.
  destruct (Z.ltb_spec code 100); [lia|].
  destruct (Z.gtb_spec code 999); [lia|]. reflexivity.
Qed.

Lemma Live_WriteHeader_refused code key value w :
  status w = None -> code < 100 \/ 999 < code ->
  Live.WriteHeader code (HeaderSet key value w) = None.
Proof.
  intros Hw Hc. unfold Live.WriteHeader, HeaderSet. cbn. rewrite Hw.
  destruct (Z.ltb_spec code 100); [reflexivity|].
  destruct (Z.gtb_spec code 999); [reflexivity|lia].
Qed.

Lemma Live_WriteHeader_is_Some code w :
  is_Some (status w) \/ 100 <= code <= 999 -> is_Some (Live.WriteHeader code w).
Proof.
  intros H. unfold Live.WriteHeader. destruct (status w) as [c|]; [by eexists|].
  destruct H as [[? [=]]|H].
  destruct (Z.ltb_spec code 100); [lia|].
  destruct (Z.gtb_spec code 999); [lia|]. by eexists.
Qed.

Lemma Live_SendWithContext_returns ctx w r st log v new st1 v1 w1 :
  Live.heap st !! r = Some v ->
  Live.Invoked implementation ctx r (Live.interceptors st)
    (Live.setHeap (<[r := guarded jsonv2_Marshal (Live.globalConfig st) v]>
                     (Live.heap st)) st) new st1 ->
  Live.heap st1 !! r = Some v1 ->
  Live.WriteHeader (Code v1) (HeaderSet "Content-Type" (ContentType v1) w) = Some w1 ->
  Live.SendWithContext implementation json_Marshal jsonv2_Marshal transport ctx w r st log
  = Some (match Live.Encode json_Marshal transport w1 v1 with
          | (w2, Some err) =>
              (w2,
               Live.setHeap
                 (<[r := appendTraceInternal (Live.globalConfig st1) "internal error"
                           [anyString (Error (EncodingError err))] v1]> (Live.heap st1))
                 st1,
               log ++ new)
          | (w2, None) => (w2, st1, log ++ new)
          end).
Proof.
  intros Hr Hinv Hr1 Hw1.
  rewrite (Live_SendWithContext_guarded ctx w r st log v Hr).
  exact (Live_sendInternal_returns ctx w r
           (Live.setHeap (<[r := guarded jsonv2_Marshal (Live.globalConfig st) v]>
                            (Live.heap st)) st)
           log new st1 v1 w1 Hinv Hr1 Hw1).
Qed.

Lemma Live_SendWithContext_panics ctx w r st log v new st1 v1 :
  Live.heap st !! r = Some v ->
  Live.Invoked implementation ctx r (Live.interceptors st)
    (Live.setHeap (<[r := guarded jsonv2_Marshal (Live.globalConfig st) v]>
                     (Live.heap st)) st) new st1 ->
  Live.heap st1 !! r = Some v1 ->
  Live.WriteHeader (Code v1) (HeaderSet "Content-Type" (ContentType v1) w) = None ->
  Live.SendWithContext implementation json_Marshal jsonv2_Marshal transport ctx w r st log
  = None.
Proof.
  intros Hr Hinv Hr1 Hw1.
  rewrite (Live_SendWithContext_guarded ctx w r st log v Hr).
  exact (Live_sendInternal_panics ctx w r
           (Live.setHeap (<[r := guarded jsonv2_Marshal (Live.globalConfig st) v]>
                            (Live.heap st)) st)
           log new st1 v1 Hinv Hr1 Hw1).
Qed.


(** C8 (amended). A delivery takes the interceptors registered when it
    starts and, when it returns, has called each of them exactly once, in
    registration order, each in the state the previous one left:
    [InterceptSimple] when the context is nil or [context.Background()],
    [Intercept] with the context when it is any other context.  [Send]
    supplies [context.Background()] and so calls [InterceptSimple] on every
    interceptor.  The delivery returns whenever every one of these calls
    returns and the writer accepts the status code the response then has. *)
Theorem C8_each_interceptor_called_once_in_order :
  forall (st : Live.World Mem I) (log : list (Live.Call I)) (ctx : Context)
         (w : ResponseWriter) (r : ptr) (v : Response),
    Live.heap st !! r = Some v ->
    let st0 := Live.setHeap (<[r := guarded jsonv2_Marshal (Live.globalConfig st) v]>
                               (Live.heap st)) st in
    (forall w' st' log',
       Live.SendWithContext implementation json_Marshal jsonv2_Marshal transport
         ctx w r st log = Some (w', st', log') ->
       exists new st1,
         Live.Invoked implementation ctx r (Live.interceptors st) st0 new st1 /\
         log' = log ++ new /\
         Live.callee <$> new = Live.interceptors st /\
         (ctx = ctxNil \/ ctx = ctxBackground ->
          Forall (fun c => exists i code, c = Live.calledInterceptSimple i r code) new) /\
         (ctx <> ctxNil -> ctx <> ctxBackground ->
          Forall (fun c => exists i code, c = Live.calledIntercept i ctx r code) new)) /\
    (forall w' st' log',
       Live.Send implementation json_Marshal jsonv2_Marshal transport w r st log
       = Some (w', st', log') ->
       exists new st1,
         Live.Invoked implementation ctxBackground r (Live.interceptors st) st0 new st1 /\
         log' = log ++ new /\
         Live.callee <$> new = Live.interceptors st /\
         Forall (fun c => exists i code, c = Live.calledInterceptSimple i r code) new) /\
    (forall new st1 v1,
       Live.Invoked implementation ctx r (Live.interceptors st) st0 new st1 ->
       Live.heap st1 !! r = Some v1 ->
       is_Some (status w) \/ 100 <= Code v1 <= 999 ->
       exists w' st',
         Live.SendWithContext implementation json_Marshal jsonv2_Marshal transport
           ctx w r st log = Some (w', st', log ++ new)).
Proof.
  intros st log ctx w r v Hr st0.
  assert (Hany : forall ctx' w' st' log',
    Live.SendWithContext implementation json_Marshal jsonv2_Marshal transport
      ctx' w r st log = Some (w', st', log') ->
    exists new st1,
      Live.Invoked implementation ctx' r (Live.interceptors st) st0 new st1 /\
      log' = log ++ new /\
      Live.callee <$> new = Live.interceptors st /\
      (ctx' = ctxNil \/ ctx' = ctxBackground ->
       Forall (fun c => exists i code, c = Live.calledInterceptSimple i r code) new) /\
      (ctx' <> ctxNil -> ctx' <> ctxBackground ->
       Forall (fun c => exists i code, c = Live.calledIntercept i ctx' r code) new)).
  { intros ctx' w' st' log' Hsend.
    rewrite (Live_SendWithContext_guarded ctx' w r st log v Hr) in Hsend.
    apply Live_sendInternal_inv in Hsend
      as (new & st1 & v1 & w1 & Hinv & -> & _).
    exists new, st1. split; [exact Hinv|]. split; [reflexivity|].
    exact (Invoked_calls _ _ _ _ _ _ Hinv). }
  split; [apply Hany|]. split.
  - intros w' st' log' Hsend.
    destruct (Hany ctxBackground w' st' log' Hsend)
      as (new & st1 & Hinv & -> & Hcallee & Hsimple & _).
    exists new, st1. repeat (split; [done|]). apply Hsimple. by right.
  - intros new st1 v1 Hinv Hr1 Hw.
    destruct (Live_WriteHeader_is_Some (Code v1)
                (HeaderSet "Content-Type" (ContentType v1) w) Hw) as [w1 Hw1].
    rewrite (Live_SendWithContext_returns ctx w r st log v new st1 v1 w1 Hr Hinv Hr1 Hw1).
    destruct (Live.Encode _ _ _ _) as [w2 [err|]]; by eexists _, _.
Qed.

End LiveDelivery.

(** A delivery with a request context through three interceptors, the
    second of which empties the registry while the delivery is in progress:
    all three are called, with [Intercept], the third with the code the
    response then has. *)
Lemma C8_interceptors_witness :
  (exists new st1,
     Live.Invoked sampleImplementation (ctxRequest 1) 0%nat [2; 1; 0]%nat
       (liveProcess [2; 1; 0]%nat [sampleResponse zeroConfig []]) new st1 /\
     [Live.calledIntercept 2%nat (ctxRequest 1) 0%nat 404;
      Live.calledIntercept 1%nat (ctxRequest 1) 0%nat 202;
      Live.calledIntercept 0%nat (ctxRequest 1) 0%nat 202] = new) /\
  (exists new st1,
     Live.Invoked sampleImplementation ctxBackground 0%nat [2; 1; 0]%nat
       (liveProcess [2; 1; 0]%nat [sampleResponse zeroConfig []]) new st1 /\
     [Live.calledInterceptSimple 2%nat 0%nat 404;
      Live.calledInterceptSimple 1%nat 0%nat 202;
      Live.calledInterceptSimple 0%nat 0%nat 202] = new).
Proof.
  destruct (C8_each_interceptor_called_once_in_order sampleImplementation
              sampleMarshal sampleMarshalCompact recorder
              (liveProcess [2; 1; 0]%nat [sampleResponse zeroConfig []]) []
              (ctxRequest 1) newResponseWriter 0%nat (sampleResponse zeroConfig [])
              eq_refl) as (Hctx & Hsend & _).
  split.
  - edestruct Hctx as (new & st1 & Hinv & Hlog & _); [vm_compute; reflexivity|].
    exists new, st1. split; [exact Hinv | exact Hlog].
  - edestruct Hsend as (new & st1 & Hinv & Hlog & _); [vm_compute; reflexivity|].
    exists new, st1. split; [exact Hinv | exact Hlog].
Defined.

(** C8 as stated fails: [context.TODO()] is an empty context, and a
    delivery with it calls [Intercept], not [InterceptSimple]. *)
Lemma C8_Intercept_called_with_empty_context :
  (fun '(_, _, log) => log)
    <$> Live.SendWithContext sampleImplementation sampleMarshal sampleMarshalCompact
          recorder ctxTODO newResponseWriter 0%nat
          (liveProcess [0%nat] [sampleResponse zeroConfig []]) []
  = Some [Live.calledIntercept 0%nat ctxTODO 0%nat 404].
Proof. vm_compute. reflexivity. Qed.

(** * Further properties of the package *)

(** ** The trace buffer, in both modes *)

Lemma appendTraceLoop_length cfg prefix force trace : forall tr,
  (length tr <= length (appendTraceLoop cfg prefix force trace tr))%nat /\
  Z.of_nat (length (appendTraceLoop cfg prefix force trace tr))
  <= Z.max (Z.of_nat (length tr)) (MaxTraceSize cfg).
Proof.
  induction trace as [|t rest IH]; intros tr.
  - cbn. lia.
  - cbn [appendTraceLoop]. destruct (traceText t) as [s|]; [|apply IH]. cbv zeta.
    destruct (Z.ltb_spec (Z.of_nat (length tr)) (MaxTraceSize cfg)).
    + specialize (IH (tr ++ [prefix +:+ ": " +:+ s])).
      rewrite length_app in IH. cbn in IH. lia.
    + destruct force; cbn [andb negb];
        destruct (Z.ltb_spec 0 (MaxTraceSize cfg)); try apply IH.
      * specialize (IH (<[Z.to_nat (MaxTraceSize cfg - 1) := s]> tr)).
        rewrite length_insert in IH. lia.
      * case_bool_decide; [lia|]. rewrite length_insert. lia.
Qed.

(** X1. An append, caller-facing or internal, never removes an entry and
    never grows the trace past the resolved capacity: the new length is at
    least the old one and at most the larger of the old length and
    [MaxTraceSize]. *)
Theorem appendTrace_length_bounds :
  forall (g : Config) (prefix : string) (force : bool) (trace : list any)
         (r : Response),
    (length (Trace r) <= length (Trace (appendTrace g prefix force trace r)))%nat /\
    Z.of_nat (length (Trace (appendTrace g prefix force trace r)))
    <= Z.max (Z.of_nat (length (Trace r))) (MaxTraceSize (getResponseConfig g r)).
Proof.
  intros g prefix force trace r. unfold appendTrace. cbn [Trace setTrace].
  apply appendTraceLoop_length.
Qed.

Lemma appendTraceLoop_other_slots cfg prefix force trace : forall tr (i : nat),
  (i < length tr)%nat ->
  Z.of_nat i <> MaxTraceSize cfg - 1 ->
  appendTraceLoop cfg prefix force trace tr !! i = tr !! i.
Proof.
  induction trace as [|t rest IH]; intros tr i Hi Hne; [reflexivity|].
  cbn [appendTraceLoop]. destruct (traceText t) as [s|]; [|by apply IH]. cbv zeta.
  destruct (Z.ltb_spec (Z.of_nat (length tr)) (MaxTraceSize cfg)).
  - rewrite IH by (rewrite ?length_app; cbn; lia). by rewrite lookup_app_l.
  - destruct force; cbn [andb negb];
      destruct (Z.ltb_spec 0 (MaxTraceSize cfg)); try (by apply IH).
    + rewrite IH by (rewrite ?length_insert; lia).
      apply list_lookup_insert_ne. lia.
    + case_bool_decide; [reflexivity|].
      apply list_lookup_insert_ne. lia.
Qed.

(** X2. An append, caller-facing or internal, rewrites no stored entry but
    the one in the last slot of the buffer (index [MaxTraceSize - 1]). *)
Theorem appendTrace_keeps_other_slots :
  forall (g : Config) (prefix : string) (force : bool) (trace : list any)
         (r : Response) (i : nat),
    (i < length (Trace r))%nat ->
    Z.of_nat i <> MaxTraceSize (getResponseConfig g r) - 1 ->
    Trace (appendTrace g prefix force trace r) !! i = Trace r !! i.
Proof.
  intros g prefix force trace r i Hi Hne. unfold appendTrace. cbn [Trace setTrace].
  by apply appendTraceLoop_other_slots.
Qed.

Lemma appendTrace_keeps_other_slots_witness :
  Trace (appendTrace defaultConfig "db" true
           [anyString "x"; anyString "y"]
           (sampleResponse (traceCap 2) ["trace: a"; "trace: b"])) !! 0%nat
  = Some "trace: a".
Proof.
  apply (appendTrace_keeps_other_slots defaultConfig "db" true
           [anyString "x"; anyString "y"]
           (sampleResponse (traceCap 2) ["trace: a"; "trace: b"]) 0%nat);
    [cbn; lia | cbn; lia].
Defined.

Lemma appendTraceLoop_no_capacity cfg prefix force trace : forall tr,
  MaxTraceSize cfg <= 0 ->
  appendTraceLoop cfg prefix force trace tr = tr.
Proof.
  induction trace as [|t rest IH]; intros tr Hcap; [reflexivity|].
  cbn [appendTraceLoop]. destruct (traceText t) as [s|]; [|by apply IH]. cbv zeta.
  destruct (Z.ltb_spec (Z.of_nat (length tr)) (MaxTraceSize cfg)); [lia|].
  destruct (Z.ltb_spec 0 (MaxTraceSize cfg)); [lia|].
  rewrite !andb_false_r. by apply IH.
Qed.

(** X3. When the resolved [MaxTraceSize] is zero or negative (an override
    stored by [Base] that sets another field only), an append stores
    nothing, in either mode: the response is left as it is. *)
Theorem appendTrace_without_capacity_stores_nothing :
  forall (g : Config) (prefix : string) (force : bool) (trace : list any)
         (r : Response),
    MaxTraceSize (getResponseConfig g r) <= 0 ->
    appendTrace g prefix force trace r = r.
Proof.
  intros g prefix force trace r Hcap. unfold appendTrace.
  rewrite appendTraceLoop_no_capacity by assumption. apply setTrace_same.
Qed.

Lemma appendTrace_without_capacity_witness :
  appendTrace defaultConfig "trace" false [anyString "a"; anyString "b"]
    (sampleResponse (mkConfig 0 5 0 "" false) [])
  = sampleResponse (mkConfig 0 5 0 "" false) [].
Proof.
  apply (appendTrace_without_capacity_stores_nothing defaultConfig "trace" false
           [anyString "a"; anyString "b"]
           (sampleResponse (mkConfig 0 5 0 "" false) [])).
  cbn. lia.
Defined.

(** A buffer at capacity whose last slot holds the marker is left as it is
    by a caller-facing append. *)
Lemma appendTraceLoop_marked_fixed cfg prefix trace : forall tr,
  0 < MaxTraceSize cfg ->
  MaxTraceSize cfg <= Z.of_nat (length tr) ->
  tr !! Z.to_nat (MaxTraceSize cfg - 1) = Some (truncMsg (MaxTraceSize cfg)) ->
  appendTraceLoop cfg prefix false trace tr = tr.
Proof.
  induction trace as [|t rest IH]; intros tr Hpos Hfull Hmark; [reflexivity|].
  cbn [appendTraceLoop]. destruct (traceText t) as [s|]; [|by apply IH]. cbv zeta.
  destruct (Z.ltb_spec (Z.of_nat (length tr)) (MaxTraceSize cfg)); [lia|].
  destruct (Z.ltb_spec 0 (MaxTraceSize cfg)); [|lia]. cbn [andb negb].
  by rewrite bool_decide_eq_true_2.
Qed.

Lemma appendTraceLoop_app cfg prefix force t1 t2 : forall tr,
  appendTraceLoop cfg prefix force (t1 ++ t2) tr
  = appendTraceLoop cfg prefix force t2 (appendTraceLoop cfg prefix force t1 tr).
Proof.
  induction t1 as [|t rest IH]; intros tr; [reflexivity|].
  cbn [app appendTraceLoop]. destruct (traceText t) as [s|]; [|apply IH]. cbv zeta.
  destruct (Z.ltb_spec (Z.of_nat (length tr)) (MaxTraceSize cfg)); [apply IH|].
  destruct force; cbn [andb negb];
    destruct (Z.ltb_spec 0 (MaxTraceSize cfg)); try apply IH.
  assert (Hlast : (Z.to_nat (MaxTraceSize cfg - 1) < length tr)%nat) by lia.
  symmetry. case_bool_decide.
  - by apply appendTraceLoop_marked_fixed.
  - apply appendTraceLoop_marked_fixed; [assumption | rewrite length_insert; lia |].
    by apply list_lookup_insert_eq.
Qed.

(** X4. One append of the entries [t1 ++ t2] leaves the response as two
    successive appends of [t1] and of [t2] do, in either mode: how the
    entries are spread over calls does not matter. *)
Theorem appendTrace_batching :
  forall (g : Config) (prefix : string) (force : bool) (t1 t2 : list any)
         (r : Response),
    appendTrace g prefix force (t1 ++ t2) r
    = appendTrace g prefix force t2 (appendTrace g prefix force t1 r).
Proof.
  intros g prefix force t1 t2 r. unfold appendTrace.
  rewrite getResponseConfig_setTrace. cbn [Trace setTrace].
  rewrite appendTraceLoop_app. by destruct r.
Qed.

Lemma textsOf_cons_text t s rest :
  traceText t = Some s -> textsOf (t :: rest) = s :: textsOf rest.
Proof. intros Et. unfold textsOf. cbn [omap list_omap]. by rewrite Et. Qed.

Lemma textsOf_cons_skip t rest :
  traceText t = None -> textsOf (t :: rest) = textsOf rest.
Proof. intros Et. unfold textsOf. cbn [omap list_omap]. by rewrite Et. Qed.

Lemma last_cons_nonempty (s : string) (l : list string) :
  l <> [] -> last (s :: l) = last l.
Proof. destruct l; [congruence | reflexivity]. Qed.

Section InternalLoop.

Variable cfg : Config.
Variable prefix : string.
Variable n : nat.
Hypothesis capacity : MaxTraceSize cfg = Z.of_nat n.
Hypothesis capacity_pos : (1 <= n)%nat.

(** The internal mode on a buffer within capacity: entries are appended with
    their prefix while there is room; from then on each entry's bare text
    replaces the last slot. *)
Lemma appendTraceLoop_internal trace : forall tr,
  (length tr <= n)%nat ->
  appendTraceLoop cfg prefix true trace tr
  = if decide (length tr + length (textsOf trace) <= n)%nat
    then tr ++ ((fun s => prefix +:+ ": " +:+ s) <$> textsOf trace)
    else take (n - 1) (tr ++ ((fun s => prefix +:+ ": " +:+ s) <$> textsOf trace))
         ++ [default "" (last (textsOf trace))].
Proof.
  induction trace as [|t rest IH]; intros tr Hlen.
  - cbn. rewrite app_nil_r. destruct (decide _); [reflexivity | lia].
  - cbn [appendTraceLoop]. destruct (traceText t) as [s|] eqn:Et.
    2: { rewrite textsOf_cons_skip by assumption. by apply IH. }
    rewrite (textsOf_cons_text _ s) by assumption. cbv zeta.
    rewrite capacity.
    replace (Z.to_nat (Z.of_nat n - 1)) with (n - 1)%nat by lia.
    cbn [length fmap list_fmap].
    destruct (Z.ltb_spec (Z.of_nat (length tr)) (Z.of_nat n)).
    + rewrite IH by (rewrite length_app; cbn; lia).
      rewrite length_app. cbn [length]. rewrite <- !app_assoc. cbn [app].
      destruct (decide (length tr + 1 + length (textsOf rest) <= n)%nat);
        destruct (decide (length tr + S (length (textsOf rest)) <= n)%nat);
        try lia; [reflexivity|].
      f_equal. f_equal.
      rewrite last_cons_nonempty; [reflexivity|].
      intros Hnil. rewrite Hnil in *. cbn in *. lia.
    + destruct (Z.ltb_spec 0 (Z.of_nat n)); [|lia]. cbn [andb].
      rewrite IH by (rewrite length_insert; lia).
      rewrite length_insert.
      destruct (decide (length tr + S (length (textsOf rest)) <= n)%nat); [lia|].
      rewrite (take_app_le tr) by lia.
      destruct (textsOf rest) as [|x l] eqn:Erest.
      * cbn [length fmap list_fmap].
        destruct (decide (length tr + 0 <= n)%nat); [|lia].
        rewrite app_nil_r. cbn. apply insert_last_slot; lia.
      * destruct (decide (length tr + length (x :: l) <= n)%nat);
          [cbn in *; lia|].
        rewrite (take_app_le (<[(n - 1)%nat := s]> tr))
          by (rewrite length_insert; lia).
        rewrite take_insert_ge by lia. reflexivity.
Qed.

End InternalLoop.

(** X5. Internal appends on a response whose trace is within a capacity
    N >= 1: while the entries fit they are appended as ["<prefix>: <text>"];
    once they do not, the trace has exactly N entries, the first N - 1 are
    the first N - 1 of the old entries followed by the new ones with
    prefix, and the last slot holds the bare text of the last entry
    supplied (last write wins, no marker). *)
Theorem appendTraceInternal_fills_then_overwrites_last :
  forall (g : Config) (prefix : string) (trace : list any) (r : Response) (n : nat),
    MaxTraceSize (getResponseConfig g r) = Z.of_nat n ->
    (1 <= n)%nat ->
    (length (Trace r) <= n)%nat ->
    let all := Trace r ++ ((fun s => prefix +:+ ": " +:+ s) <$> textsOf trace) in
    ((length all <= n)%nat ->
     Trace (appendTraceInternal g prefix trace r) = all) /\
    ((n < length all)%nat ->
     exists b, last (textsOf trace) = Some b /\
       Trace (appendTraceInternal g prefix trace r) = take (n - 1) all ++ [b] /\
       length (Trace (appendTraceInternal g prefix trace r)) = n).
Proof.
  intros g prefix trace r n Hcap Hn Hlen. cbv zeta.
  unfold appendTraceInternal, appendTrace. cbn [Trace setTrace].
  rewrite (appendTraceLoop_internal _ prefix n Hcap Hn) by assumption.
  rewrite length_app, length_fmap. split; intros Hall.
  - destruct (decide _); [reflexivity | lia].
  - destruct (decide _); [lia|].
    destruct (last (textsOf trace)) as [b|] eqn:Elast.
    + exists b. split; [reflexivity|]. split; [reflexivity|].
      rewrite length_app, length_take, length_app, length_fmap. cbn. lia.
    + apply last_None in Elast. rewrite Elast in Hall. cbn in Hall. lia.
Qed.

Lemma appendTraceInternal_overwrites_witness :
  let all := ["trace: a"] ++ ((fun s => "db" +:+ ": " +:+ s)
                                <$> textsOf [anyString "x"; anyOther 0; anyString "y"]) in
  ((length all <= 2)%nat ->
   Trace (appendTraceInternal defaultConfig "db"
            [anyString "x"; anyOther 0; anyString "y"]
            (sampleResponse (traceCap 2) ["trace: a"])) = all) /\
  ((2 < length all)%nat ->
   exists b, last (textsOf [anyString "x"; anyOther 0; anyString "y"]) = Some b /\
     Trace (appendTraceInternal defaultConfig "db"
              [anyString "x"; anyOther 0; anyString "y"]
              (sampleResponse (traceCap 2) ["trace: a"])) = take (2 - 1) all ++ [b] /\
     length (Trace (appendTraceInternal defaultConfig "db"
                      [anyString "x"; anyOther 0; anyString "y"]
                      (sampleResponse (traceCap 2) ["trace: a"]))) = 2%nat).
Proof.
  apply (appendTraceInternal_fills_then_overwrites_last defaultConfig "db"
           [anyString "x"; anyOther 0; anyString "y"]
           (sampleResponse (traceCap 2) ["trace: a"]) 2%nat);
    [reflexivity | lia | cbn; lia].
Defined.

(** ** The configuration store *)

Lemma fillDefaults_of_valid c : validConfig c -> fillDefaults c = c.
Proof.
  intros (H1 & H2 & H3 & H4). destruct c as [a b d e f]. cbn in *.
  unfold fillDefaults. cbn.
  destruct (Z.leb_spec a 0); [lia|].
  destruct (Z.leb_spec b 0); [lia|].
  destruct (Z.leb_spec d 0); [lia|].
  by rewrite bool_decide_eq_false_2.
Qed.

(** X6. [SetConfig] never fails and never stores an invalid configuration:
    every number stored is positive and the content type is not empty.  A
    field that is already positive (or a content type that is not empty) is
    stored as given, whatever the other fields are; a non-positive number is
    replaced by 50, 10485760 or 20 and an empty content type by
    ["application/json"]; the toggle is stored as given.  The registry and
    the responses are not touched. *)
Theorem SetConfig_normalizes :
  forall (cfg : Config) (st : State),
    exists st',
      SetConfig cfg st = Some (tt, st') /\
      validConfig (globalConfig st') /\
      (0 < MaxTraceSize cfg -> MaxTraceSize (globalConfig st') = MaxTraceSize cfg) /\
      (MaxTraceSize cfg <= 0 -> MaxTraceSize (globalConfig st') = 50) /\
      (0 < ResponseSizeLimit cfg ->
       ResponseSizeLimit (globalConfig st') = ResponseSizeLimit cfg) /\
      (ResponseSizeLimit cfg <= 0 -> ResponseSizeLimit (globalConfig st') = 10485760) /\
      (0 < MaxInterceptorAmount cfg ->
       MaxInterceptorAmount (globalConfig st') = MaxInterceptorAmount cfg) /\
      (MaxInterceptorAmount cfg <= 0 -> MaxInterceptorAmount (globalConfig st') = 20) /\
      (DefaultContentType cfg <> "" ->
       DefaultContentType (globalConfig st') = DefaultContentType cfg) /\
      (DefaultContentType cfg = "" ->
       DefaultContentType (globalConfig st') = "application/json") /\
      EnableSizeValidation (globalConfig st') = EnableSizeValidation cfg /\
      interceptors st' = interceptors st /\ heap st' = heap st.
Proof.
  intros cfg st. eexists. split; [reflexivity|].
  cbn [globalConfig setGlobalConfig interceptors heap].
  split; [apply fillDefaults_valid|].
  destruct (fillDefaults_fields cfg) as (H1 & H2 & H3 & H4 & H5).
  rewrite H1, H2, H3, H4, H5.
  repeat split; intros; repeat case_decide; try lia; try contradiction; reflexivity.
Qed.

Lemma SetConfig_normalizes_witness :
  exists st',
    SetConfig (mkConfig 7 0 (-3) "text/plain" false) (initState noon) = Some (tt, st') /\
    validConfig (globalConfig st') /\
    (0 < 7 -> MaxTraceSize (globalConfig st') = 7) /\
    (7 <= 0 -> MaxTraceSize (globalConfig st') = 50) /\
    (0 < 0 -> ResponseSizeLimit (globalConfig st') = 0) /\
    (0 <= 0 -> ResponseSizeLimit (globalConfig st') = 10485760) /\
    (0 < -3 -> MaxInterceptorAmount (globalConfig st') = -3) /\
    (-3 <= 0 -> MaxInterceptorAmount (globalConfig st') = 20) /\
    ("text/plain" <> "" -> DefaultContentType (globalConfig st') = "text/plain") /\
    ("text/plain" = "" -> DefaultContentType (globalConfig st') = "application/json") /\
    EnableSizeValidation (globalConfig st') = false /\
    interceptors st' = [] /\ heap st' = [].
Proof.
  exact (SetConfig_normalizes (mkConfig 7 0 (-3) "text/plain" false) (initState noon)).
Defined.

(** X7. Reading the configuration and storing it back changes nothing, in
    every process whose store is valid (which [init] and [SetConfig]
    guarantee): normalization leaves a valid configuration as it is. *)
Theorem GetConfig_SetConfig_round_trip :
  forall (st : State),
    validConfig (globalConfig st) ->
    (c <- GetConfig ;; SetConfig c) st = Some (tt, st).
Proof.
  intros st Hv. unfold bind, GetConfig, getConfig, SetConfig.
  rewrite fillDefaults_of_valid by assumption. by destruct st.
Qed.

Lemma GetConfig_SetConfig_round_trip_witness :
  (c <- GetConfig ;; SetConfig c) unguardedProcess = Some (tt, unguardedProcess).
Proof.
  apply (GetConfig_SetConfig_round_trip unguardedProcess).
  apply fillDefaults_valid.
Defined.

(** ** Constructors, [Base] and the status methods *)

(** X8. Each of the seventeen status constructors allocates a new response
    with its own code, which lies in [100, 599], the first message given (or
    none), the current time, the process-wide default content type, an
    empty trace and no override; such a response resolves, whenever it is
    asked, to the process-wide configuration of that moment. *)
Theorem constructors_pin_code_and_follow_the_store :
  Forall (fun '(code, construct) =>
            100 <= code <= 599 /\
            forall (msg : list string) (st : State),
            exists r,
              construct msg st = Some (length (heap st), setHeap (heap st ++ [r]) st) /\
              Code r = code /\
              Message r = match msg with m :: _ => m | [] => "" end /\
              Timestamp r = clock st /\
              ContentType r = DefaultContentType (globalConfig st) /\
              Module_ r = "" /\ Data r = anyNil /\ Trace r = [] /\
              PaginationData r = None /\ TracePrefix r = "" /\
              forall g, getResponseConfig g r = g)
         statusConstructors.
Proof.
  unfold statusConstructors.
  repeat (apply Forall_cons_2;
          [split; [lia | intros msg st; eexists; split; [reflexivity|];
                         cbn; repeat split; intros g; reflexivity] |]).
  constructor.
Qed.

(** X9. [Base]: the response has code 0 and the zero time, and it carries as
    its override the configuration given, stored as given and not
    normalized, or the process-wide configuration of the moment when none is
    given; its content type is that configuration's.  Without an argument,
    in a process whose store is valid, the response keeps resolving to the
    configuration of its creation, whatever [SetConfig] stores later. *)
Theorem Base_pins_creation_configuration :
  forall (cfg : option Config) (st : State),
    exists r,
      Base cfg st = Some (length (heap st), setHeap (heap st ++ [r]) st) /\
      Code r = 0 /\ Timestamp r = zeroTime /\ Message r = "" /\ Trace r = [] /\
      config r = default (globalConfig st) cfg /\
      ContentType r = DefaultContentType (default (globalConfig st) cfg) /\
      (cfg = None -> validConfig (globalConfig st) ->
       forall g, getResponseConfig g r = globalConfig st).
Proof.
  intros cfg st. eexists. split; [reflexivity|].
  cbn [Code Timestamp Message Trace config ContentType].
  destruct cfg as [c|]; cbn [default]; repeat split; try discriminate.
  intros _ (H1 & _). unfold getResponseConfig. cbn [config].
  by destruct (Z.ltb_spec 0 (MaxTraceSize (globalConfig st))); [|lia].
Qed.

Lemma Base_pins_creation_configuration_witness :
  exists r,
    Base None (initState noon) = Some (0%nat, setHeap ([] ++ [r]) (initState noon)) /\
    Code r = 0 /\ Timestamp r = zeroTime /\ Message r = "" /\ Trace r = [] /\
    config r = defaultConfig /\
    ContentType r = "application/json" /\
    (@None Config = None -> validConfig defaultConfig ->
     forall g, getResponseConfig g r = defaultConfig).
Proof.
  exact (Base_pins_creation_configuration None (initState noon)).
Defined.

(** X10. Each of the seventeen status methods assigns its own code, which
    lies in [100, 599], and replaces the message by the first one given; called
    without a message it erases the message the response had.  No other
    field changes. *)
Theorem status_methods_set_code_and_replace_message :
  Forall (fun '(code, m) =>
            100 <= code <= 599 /\
            forall (msg : list string) (r : Response),
              Code (m msg r) = code /\
              Message (m msg r) = match msg with x :: _ => x | [] => "" end /\
              Module_ (m msg r) = Module_ r /\ Data (m msg r) = Data r /\
              Trace (m msg r) = Trace r /\ Timestamp (m msg r) = Timestamp r /\
              PaginationData (m msg r) = PaginationData r /\
              ContentType (m msg r) = ContentType r /\
              TracePrefix (m msg r) = TracePrefix r /\
              config (m msg r) = config r)
         statusMethods.
Proof.
  unfold statusMethods.
  repeat (apply Forall_cons_2;
          [split; [lia | intros [|x msg] r; cbn; repeat split] |]).
  constructor.
Qed.

(** ** [WithConfig] and [WithCode] *)

(** X11. A configuration set with [WithConfig] always takes effect: whatever
    the process-wide configuration is when the response is used, the
    response resolves to the normalized override, which is valid.  Setting
    the same configuration again changes nothing. *)
Theorem WithConfig_override_always_resolved :
  forall (g g' : Config) (cfg : Config) (r : Response),
    getResponseConfig g' (WithConfig g cfg r) = fillDefaults cfg /\
    validConfig (fillDefaults cfg) /\
    WithConfig g cfg (WithConfig g cfg r) = WithConfig g cfg r.
Proof.
  intros g g' cfg r.
  pose proof (fillDefaults_valid cfg) as Hv.
  assert (Hcfg : forall x, config (WithConfig g cfg x) = fillDefaults cfg).
  { intros x. unfold WithConfig. by destruct (_ || _). }
  split; [|split; [exact Hv|]].
  - unfold getResponseConfig. rewrite Hcfg. destruct Hv as (H1 & _).
    by destruct (Z.ltb_spec 0 (MaxTraceSize (fillDefaults cfg))); [|lia].
  - destruct r as [a b c d e f h ct tp cf].
    unfold WithConfig. cbn [ContentType setConfigField].
    destruct (bool_decide (ct = "")) eqn:E1;
      destruct (bool_decide (ct = DefaultContentType g)) eqn:E2;
      cbn [orb ContentType setConfigField setContentType
           Module_ Message Data Trace Timestamp PaginationData Code TracePrefix config];
      rewrite ?E1, ?E2; cbn [orb];
      try reflexivity;
      destruct (bool_decide (DefaultContentType (fillDefaults cfg) = "")
                || bool_decide (DefaultContentType (fillDefaults cfg)
                                = DefaultContentType g));
      reflexivity.
Qed.

Lemma WithCode_invalid_any_capacity st p code :
  code < 100 \/ 599 < code ->
  exists e,
    WithCode code p st = Some (length (heap st), setHeap (heap st ++ [e]) st) /\
    Code e = 500.
Proof.
  intros Hcode. unfold WithCode.
  rewrite validateStatusCode_invalid by assumption.
  unfold bind, InternalServerError, newBaseResponse, new, method.
  cbn [heap setHeap globalConfig].
  rewrite list_lookup_middle by reflexivity.
  eexists. split.
  - f_equal. f_equal. unfold setHeap; cbn. f_equal.
    rewrite insert_app_r_alt by lia.
    replace (length (heap st) - length (heap st))%nat with 0%nat by lia.
    reflexivity.
  - reflexivity.
Qed.

(** X12. [WithCode] never yields a code outside [100, 599]: whatever code
    it is given, the response it returns has a code in that range, and if
    every allocated response had a code in that range before the call,
    every allocated response has one after it. *)
Theorem WithCode_keeps_codes_in_range :
  forall (st : State) (p : ptr) (r : Response) (code : Z),
    heap st !! p = Some r ->
    exists q st' e,
      WithCode code p st = Some (q, st') /\
      heap st' !! q = Some e /\
      100 <= Code e <= 599 /\
      (Forall (fun v => 100 <= Code v <= 599) (heap st) ->
       Forall (fun v => 100 <= Code v <= 599) (heap st')).
Proof.
  intros st p r code Hp.
  destruct (decide (100 <= code <= 599)) as [Hin|Hout].
  - exists p, (setHeap (<[p := setCode code r]> (heap st)) st), (setCode code r).
    split; [by apply WithCode_valid_run|].
    split; [cbn; by eapply heap_lookup_updated|].
    split; [exact Hin|].
    intros Hall. cbn. apply Forall_insert; assumption.
  - destruct (WithCode_invalid_any_capacity st p code) as (e & Hrun & He); [lia|].
    exists (length (heap st)), (setHeap (heap st ++ [e]) st), e.
    split; [exact Hrun|].
    split; [cbn; by rewrite list_lookup_middle|].
    split; [lia|].
    intros Hall. cbn. apply Forall_app. split; [assumption|].
    apply Forall_singleton. lia.
Qed.

Lemma WithCode_keeps_codes_in_range_witness :
  exists q st' e,
    WithCode (-1) 0%nat (processWith [sampleResponse zeroConfig []]) = Some (q, st') /\
    heap st' !! q = Some e /\
    100 <= Code e <= 599 /\
    (Forall (fun v => 100 <= Code v <= 599) [sampleResponse zeroConfig []] ->
     Forall (fun v => 100 <= Code v <= 599) (heap st')).
Proof.
  exact (WithCode_keeps_codes_in_range (processWith [sampleResponse zeroConfig []])
           0%nat (sampleResponse zeroConfig []) (-1) eq_refl).
Defined.

(** ** The interceptor registry *)

Lemma registerAll_run l : forall st,
  registerAll l st
  = Some (replicate (min (room st) (length l)) None
          ++ replicate (length l - room st)
               (Some (InterceptorLimitError
                        (Z.of_nat (length (interceptors st) + room st))
                        (MaxInterceptorAmount (globalConfig st)))),
          setInterceptors (interceptors st ++ take (room st) l) st).
Proof.
  induction l as [|i rest IH]; intros st.
  - cbn. rewrite take_nil, Nat.min_0_r, !app_nil_r. cbn. by destruct st.
  - cbn [registerAll]. unfold bind, AddInterceptor. cbv zeta.
    destruct (Z.geb_spec (Z.of_nat (length (interceptors st)))
                         (MaxInterceptorAmount (globalConfig st))) as [Hfull|Hroom].
    + rewrite IH. unfold ret.
      assert (Hr : room st = 0%nat) by (unfold room; lia).
      rewrite Hr. cbn [min take replicate app length Nat.sub].
      rewrite Nat.add_0_r, Nat.sub_0_r. reflexivity.
    + rewrite IH. unfold ret.
      set (st1 := setInterceptors (interceptors st ++ [i]) st).
      assert (Hr : room st = S (room st1)).
      { unfold room, st1. cbn. rewrite length_app. cbn. lia. }
      rewrite Hr. cbn [min Nat.min take replicate app length Nat.sub].
      subst st1. cbn [interceptors setInterceptors globalConfig].
      rewrite length_app. cbn [length].
      replace (length (interceptors st) + 1 + room
                 (setInterceptors (interceptors st ++ [i]) st))%nat
        with (length (interceptors st)
              + S (room (setInterceptors (interceptors st ++ [i]) st)))%nat by lia.
      rewrite <- app_assoc. reflexivity.
Qed.

(** X13. Registering a list of interceptors one after the other: those for
    which the registry has room (up to [MaxInterceptorAmount] in all) are
    appended in order and return no error; every later one is refused with
    an interceptor-limit error that reports the registry size and the limit,
    and leaves the registry as it is.  Configuration and responses are not
    touched. *)
Theorem registerAll_accepts_up_to_the_limit :
  forall (l : list ResponseInterceptor) (st : State),
    exists es st',
      registerAll l st = Some (es, st') /\
      interceptors st' = interceptors st ++ take (room st) l /\
      es = replicate (min (room st) (length l)) None
           ++ replicate (length l - room st)
                (Some (InterceptorLimitError
                         (Z.of_nat (length (interceptors st) + room st))
                         (MaxInterceptorAmount (globalConfig st)))) /\
      Z.of_nat (length (interceptors st'))
      <= Z.max (Z.of_nat (length (interceptors st)))
               (MaxInterceptorAmount (globalConfig st)) /\
      globalConfig st' = globalConfig st /\ heap st' = heap st.
Proof.
  intros l st. eexists _, _. split; [apply registerAll_run|].
  cbn [interceptors setInterceptors globalConfig heap].
  repeat split.
  rewrite length_app, length_take. unfold room. lia.
Qed.

(** X14. [RemoveAllInterceptors] empties the registry whatever it held:
    registering a list of interceptors after it leaves exactly the first
    [MaxInterceptorAmount] of that list registered, in order (none when the
    limit is not positive).  Configuration and responses are not touched. *)
Theorem RemoveAllInterceptors_then_register :
  forall (l : list ResponseInterceptor) (st : State),
    exists es st',
      (_ <- RemoveAllInterceptors ;; registerAll l) st = Some (es, st') /\
      interceptors st' = take (Z.to_nat (MaxInterceptorAmount (globalConfig st))) l /\
      globalConfig st' = globalConfig st /\ heap st' = heap st.
Proof.
  intros l st. unfold bind, RemoveAllInterceptors.
  eexists _, _. split; [apply registerAll_run|].
  unfold room. cbn. repeat split. f_equal. lia.
Qed.

(** ** Delivery, with any registry *)


Section DeliveryRuns.

Variable json_Marshal : Wire -> string + error.
Variable jsonv2_Marshal : Wire -> string + error.



End DeliveryRuns.

Section DeliveryFurther.

Variable json_Marshal : Wire -> string + error.
Variable jsonv2_Marshal : Wire -> string + error.



(** X19. The size check: with validation disabled in the resolved
    configuration it succeeds without looking at the response; otherwise an
    encoder error is returned wrapped as an encoding error, a size above the
    resolved limit gives a size-limit error carrying that size and the
    limit, and a size up to and including the limit passes. *)
Theorem validateResponseSize_cases :
  forall (g : Config) (r : Response),
    (EnableSizeValidation (getResponseConfig g r) = false ->
     validateResponseSize jsonv2_Marshal g r = None) /\
    (EnableSizeValidation (getResponseConfig g r) = true ->
     (forall err, jsonv2_Marshal (wire r) = inr err ->
        validateResponseSize jsonv2_Marshal g r = Some (EncodingError err)) /\
     (forall b, jsonv2_Marshal (wire r) = inl b ->
        (Z.of_nat (String.length b) <= ResponseSizeLimit (getResponseConfig g r) ->
         validateResponseSize jsonv2_Marshal g r = None) /\
        (ResponseSizeLimit (getResponseConfig g r) < Z.of_nat (String.length b) ->
         validateResponseSize jsonv2_Marshal g r
         = Some (SizeLimitError (Z.of_nat (String.length b))
                   (ResponseSizeLimit (getResponseConfig g r)))))).
Proof.
  intros g r. unfold validateResponseSize. cbv zeta. split.
  - by intros ->.
  - intros ->. cbn [negb]. rewrite estimateSize_run. split.
    + by intros err ->.
    + intros b ->. split; intros H.
      * destruct (Z.gtb_spec (Z.of_nat (String.length b))
                             (ResponseSizeLimit (getResponseConfig g r)));
          [lia | reflexivity].
      * destruct (Z.gtb_spec (Z.of_nat (String.length b))
                             (ResponseSizeLimit (getResponseConfig g r)));
          [reflexivity | lia].
Qed.

(** X20. [IsWithinLimits] holds exactly when the trace is no longer than
    the resolved [MaxTraceSize] and the size check passes. *)
Theorem IsWithinLimits_iff :
  forall (g : Config) (r : Response),
    IsWithinLimits jsonv2_Marshal g r = true <->
    Z.of_nat (length (Trace r)) <= MaxTraceSize (getResponseConfig g r) /\
    validateResponseSize jsonv2_Marshal g r = None.
Proof.
  intros g r. unfold IsWithinLimits. cbv zeta.
  destruct (Z.gtb_spec (Z.of_nat (length (Trace r)))
                       (MaxTraceSize (getResponseConfig g r))) as [Hgt|Hle].
  - split; [discriminate | lia].
  - destruct (EnableSizeValidation (getResponseConfig g r)) eqn:Een.
    + destruct (validateResponseSize jsonv2_Marshal g r) eqn:Ev.
      * split; [discriminate | intros [_ ?]; discriminate].
      * by split.
    + split; [|reflexivity]. intros _. split; [exact Hle|].
      unfold validateResponseSize. by rewrite Een.
Qed.

End DeliveryFurther.

(** ** Delivery with the caller's code, further *)

Section LiveDeliveryFurther.

Context {Mem I : Type}.
Variable implementation : I -> Live.ResponseInterceptor Mem I.
Variable json_Marshal : Wire -> string + error.
Variable jsonv2_Marshal : Wire -> string + error.
Variable transport : string -> ResponseWriter -> ResponseWriter * option error.

(** X15. What a delivery writes is the response as the interceptors leave
    it.  Let [v1] be the response once the size guard and then every
    registered interceptor have run, and let the header of the writer be
    unwritten.  When the code of [v1] is outside [100, 999] the delivery
    panics in [WriteHeader].  Otherwise it returns, having set the
    Content-Type header to [v1]'s content type, written [v1]'s code as the
    status and handed the encoding of [v1] to the writer in one [Write];
    when the encoder fails the writer is left with the header and the
    status.  With a writer that takes the bytes, the body grows by exactly
    that encoding. *)
Theorem SendWithContext_emits_what_interceptors_leave :
  forall (st : Live.World Mem I) (log : list (Live.Call I)) (ctx : Context)
         (w : ResponseWriter) (r : ptr) (v : Response)
         (new : list (Live.Call I)) (st1 : Live.World Mem I) (v1 : Response),
    Live.heap st !! r = Some v ->
    status w = None ->
    Live.Invoked implementation ctx r (Live.interceptors st)
      (Live.setHeap (<[r := guarded jsonv2_Marshal (Live.globalConfig st) v]>
                       (Live.heap st)) st) new st1 ->
    Live.heap st1 !! r = Some v1 ->
    (Code v1 < 100 \/ 999 < Code v1 ->
     Live.SendWithContext implementation json_Marshal jsonv2_Marshal transport
       ctx w r st log = None) /\
    (100 <= Code v1 <= 999 ->
     exists w' st',
       Live.SendWithContext implementation json_Marshal jsonv2_Marshal transport
         ctx w r st log = Some (w', st', log ++ new) /\
       w' = match json_Marshal (wire v1) with
            | inl b => fst (transport b (Live.headed w v1))
            | inr _ => Live.headed w v1
            end /\
       (forall b,
          json_Marshal (wire v1) = inl b ->
          transport b (Live.headed w v1) = (Write b (Live.headed w v1), None) ->
          Header w' !! "Content-Type" = Some (ContentType v1) /\
          status w' = Some (Code v1) /\
          body w' = body w +:+ b)).
Proof.
  intros st log ctx w r v new st1 v1 Hr Hw Hinv Hr1.
  split.
  - intros Hcode.
    eapply Live_SendWithContext_panics; [exact Hr | exact Hinv | exact Hr1 |].
    by apply Live_WriteHeader_refused.
  - intros Hcode.
    pose proof (Live_WriteHeader_fresh (Code v1) "Content-Type" (ContentType v1) w
                  Hw Hcode) as Hw1.
    rewrite (Live_SendWithContext_returns implementation json_Marshal jsonv2_Marshal
               transport ctx w r st log v new st1 v1 _ Hr Hinv Hr1 Hw1).
    unfold Live.Encode. fold (Live.headed w v1).
    destruct (json_Marshal (wire v1)) as [b|err].
    + destruct (transport b (Live.headed w v1)) as [w2 [err|]] eqn:Ht;
        eexists _, _; (split; [reflexivity|]); (split; [reflexivity|]);
        intros b' [= <-] Ht'; rewrite Ht' in Ht; try discriminate.
      injection Ht as <-. cbn. split; [by rewrite lookup_insert_eq|]. by split.
    + eexists _, _. split; [reflexivity|]. split; [reflexivity|].
      intros b' [=].
Qed.


(** X18. A failed [Encode] is recorded in the response by an internal
    append under the prefix ["internal error"].  Let [v1] be the response
    the interceptors leave, with a code the writer accepts.  [Encode] fails
    when the encoder fails, and then the writer has the header and the
    status and not one body byte, or when the writer's [Write] fails, and
    then the writer is as that [Write] left it.  In both cases the delivery
    returns and the response is [v1] with the text
    ["encoding failed: <error>"] appended internally under the trace
    capacity resolved with the process-wide configuration the interceptors
    leave: below capacity the entry
    ["internal error: encoding failed: <error>"] is added at the end of the
    trace. *)
Theorem SendWithContext_records_encoding_failure :
  forall (st : Live.World Mem I) (log : list (Live.Call I)) (ctx : Context)
         (w : ResponseWriter) (r : ptr) (v : Response)
         (new : list (Live.Call I)) (st1 : Live.World Mem I) (v1 : Response)
         (w2 : ResponseWriter) (err : error),
    Live.heap st !! r = Some v ->
    status w = None ->
    Live.Invoked implementation ctx r (Live.interceptors st)
      (Live.setHeap (<[r := guarded jsonv2_Marshal (Live.globalConfig st) v]>
                       (Live.heap st)) st) new st1 ->
    Live.heap st1 !! r = Some v1 ->
    100 <= Code v1 <= 999 ->
    (json_Marshal (wire v1) = inr err /\ w2 = Live.headed w v1) \/
    (exists b, json_Marshal (wire v1) = inl b /\
               transport b (Live.headed w v1) = (w2, Some err)) ->
    exists st' r',
      Live.SendWithContext implementation json_Marshal jsonv2_Marshal transport
        ctx w r st log = Some (w2, st', log ++ new) /\
      Live.heap st' !! r = Some r' /\
      r' = appendTraceInternal (Live.globalConfig st1) "internal error"
             [anyString ("encoding failed: " +:+ Error err)] v1 /\
      (Z.of_nat (length (Trace v1))
       < MaxTraceSize (getResponseConfig (Live.globalConfig st1) v1) ->
       Trace r' = Trace v1 ++ ["internal error: encoding failed: " +:+ Error err]).
Proof.
  intros st log ctx w r v new st1 v1 w2 err Hr Hw Hinv Hr1 Hcode Hfail.
  pose proof (Live_WriteHeader_fresh (Code v1) "Content-Type" (ContentType v1) w
                Hw Hcode) as Hw1.
  rewrite (Live_SendWithContext_returns implementation json_Marshal jsonv2_Marshal
             transport ctx w r st log v new st1 v1 _ Hr Hinv Hr1 Hw1).
  unfold Live.Encode. fold (Live.headed w v1).
  assert (He : match json_Marshal (wire v1) with
               | inl p => transport p (Live.headed w v1)
               | inr e => (Live.headed w v1, Some e)
               end = (w2, Some err)).
  { destruct Hfail as [[-> ->]|(b & -> & Ht)]; [reflexivity | exact Ht]. }
  rewrite He.
  eexists _, _. split; [reflexivity|].
  split; [cbn; by eapply heap_lookup_updated|].
  split; [reflexivity|].
  intros Hroom.
  exact (appendTrace_below_capacity (Live.globalConfig st1) "internal error" true
           (anyString ("encoding failed: " +:+ Error err))
           ("encoding failed: " +:+ Error err) _ eq_refl Hroom).
Qed.

End LiveDeliveryFurther.

(** ** The two embeddings of the delivery *)


Section Embeddings.

Variable json_Marshal : Wire -> string + error.
Variable jsonv2_Marshal : Wire -> string + error.


End Embeddings.


(** ** Pagination *)

Section PaginationProperties.

Variable Atoi : string -> option Z.
Variable ceilOfQuotient : Z -> Z -> Z.

(** X21. Whatever the query holds and whatever [strconv.Atoi] makes of it,
    the parameters parsed have a page of at least 1 and a limit between 1
    and 100.  A page that parses to a number of at least 1 is taken as it
    is, and a limit between 1 and 100 likewise; a page or limit that does
    not parse, or is below 1, becomes 1 or 20; a limit above 100 becomes
    100. *)
Theorem ParsePaginationFromQuery_bounds :
  forall (values : gmap string (list string)),
    let params := ParsePaginationFromQuery Atoi values in
    1 <= Params.Page params /\
    1 <= Params.Limit params <= 100 /\
    (forall n, Atoi (Values_Get values "page") = Some n ->
       (1 <= n -> Params.Page params = n) /\ (n < 1 -> Params.Page params = 1)) /\
    (Atoi (Values_Get values "page") = None -> Params.Page params = 1) /\
    (forall n, Atoi (Values_Get values "limit") = Some n ->
       (1 <= n <= 100 -> Params.Limit params = n) /\
       (100 < n -> Params.Limit params = 100) /\
       (n < 1 -> Params.Limit params = 20)) /\
    (Atoi (Values_Get values "limit") = None -> Params.Limit params = 20).
Proof.
  intros values. cbv zeta. unfold ParsePaginationFromQuery.
  cbn [Params.Page Params.Limit]. unfold defaultPage, defaultLimit, maxLimit.
  destruct (Atoi (Values_Get values "page")) as [pg|];
    destruct (Atoi (Values_Get values "limit")) as [lm|];
    repeat match goal with
           | |- context [?a <? ?b] => destruct (Z.ltb_spec a b)
           | |- context [?a >? ?b] => destruct (Z.gtb_spec a b)
           end;
    repeat split; intros; simplify_eq; lia.
Qed.

(** X22. The pagination block [WithPagination] attaches, the only field it
    changes: page, limit and total are the ones given; [has_prev] holds
    exactly when the page is above 1 and [has_next] exactly when it is below
    the number of pages; [prev_page] and [next_page] are present exactly
    when the flag holds, and are then the page before, which is at least 1,
    and the page after, which is at most the number of pages. *)
Theorem WithPagination_block :
  forall (params : Params.t) (total : Z) (r : Response),
    exists m,
      WithPagination ceilOfQuotient params total r = setPaginationData (Some m) r /\
      Page m = Params.Page params /\ Limit m = Params.Limit params /\
      Total m = total /\
      TotalPages m = ceilOfQuotient total (Params.Limit params) /\
      (HasPrev m = true <-> 1 < Page m) /\
      (HasNext m = true <-> Page m < TotalPages m) /\
      (is_Some (PrevPage m) <-> HasPrev m = true) /\
      (is_Some (NextPage m) <-> HasNext m = true) /\
      (forall q, PrevPage m = Some q -> q = Page m - 1 /\ 1 <= q) /\
      (forall q, NextPage m = Some q -> q = Page m + 1 /\ q <= TotalPages m).
Proof.
  intros params total r. eexists. split; [reflexivity|].
  unfold CreatePaginationMeta. cbv zeta.
  cbn [Page Limit Total TotalPages HasPrev HasNext PrevPage NextPage].
  destruct (Z.gtb_spec (Params.Page params) 1);
    destruct (Z.ltb_spec (Params.Page params)
                (ceilOfQuotient total (Params.Limit params)));
    repeat split; try reflexivity; try lia; try discriminate;
    intros; simplify_eq; try lia; try (by eexists);
    try match goal with
        | H : is_Some None |- _ => destruct H; discriminate
        end.
Qed.

End PaginationProperties.

Lemma ParsePaginationFromQuery_bounds_witness :
  let params := ParsePaginationFromQuery sampleAtoi
                  {[ "page" := ["3"]; "limit" := ["500"; "7"] ]} in
  1 <= Params.Page params /\
  1 <= Params.Limit params <= 100 /\
  (forall n, sampleAtoi (Values_Get {[ "page" := ["3"]; "limit" := ["500"; "7"] ]} "page")
             = Some n ->
     (1 <= n -> Params.Page params = n) /\ (n < 1 -> Params.Page params = 1)) /\
  (sampleAtoi (Values_Get {[ "page" := ["3"]; "limit" := ["500"; "7"] ]} "page") = None ->
   Params.Page params = 1) /\
  (forall n, sampleAtoi (Values_Get {[ "page" := ["3"]; "limit" := ["500"; "7"] ]} "limit")
             = Some n ->
     (1 <= n <= 100 -> Params.Limit params = n) /\
     (100 < n -> Params.Limit params = 100) /\
     (n < 1 -> Params.Limit params = 20)) /\
  (sampleAtoi (Values_Get {[ "page" := ["3"]; "limit" := ["500"; "7"] ]} "limit") = None ->
   Params.Limit params = 20).
Proof.
  exact (ParsePaginationFromQuery_bounds sampleAtoi
           {[ "page" := ["3"]; "limit" := ["500"; "7"] ]}).
Defined.


(** ** Validation errors *)

Lemma textsOf_strings (l : list string) : textsOf (anyString <$> l) = l.
Proof.
  induction l as [|x l IH]; [reflexivity|].
  cbn [fmap list_fmap]. rewrite (textsOf_cons_text _ x) by reflexivity.
  f_equal. exact IH.
Qed.

Lemma appendTrace_app g prefix force t1 t2 r :
  appendTrace g prefix force (t1 ++ t2) r
  = appendTrace g prefix force t2 (appendTrace g prefix force t1 r).
Proof.
  unfold appendTrace. rewrite getResponseConfig_setTrace. cbn [Trace setTrace].
  rewrite appendTraceLoop_app. by destruct r.
Qed.

(** The loop of [AddValidationErrors] is one internal append of all the
    messages. *)
Lemma addValidationTraces_run errs : forall st p v,
  heap st !! p = Some v ->
  addValidationTraces errs p st
  = Some (p, setHeap (<[p := appendTraceInternal (globalConfig st) "validation"
                              (anyString <$> (validationTraceMsg <$> errs)) v]>
                        (heap st)) st).
Proof.
  induction errs as [|e rest IH]; intros st p v Hp.
  - cbn. unfold appendTraceInternal, appendTrace. cbn.
    rewrite setTrace_same, list_insert_id by assumption. by rewrite setHeap_same.
  - cbn [addValidationTraces]. unfold bind.
    rewrite (method_run _ _ _ v) by assumption.
    rewrite (IH _ p (appendTraceInternal (globalConfig st) "validation"
                       [anyString (validationTraceMsg e)] v))
      by (cbn; by eapply heap_lookup_updated).
    cbn [heap setHeap globalConfig]. rewrite list_insert_insert_eq.
    unfold appendTraceInternal.
    rewrite <- (appendTrace_app (globalConfig st) "validation" true
                  [anyString (validationTraceMsg e)]
                  (anyString <$> (validationTraceMsg <$> rest))).
    reflexivity.
Qed.

(** The text [AddValidationErrors] formats for one error. *)
Lemma validationTraceMsg_text (e : ValidationTrace.t) :
  validationTraceMsg e
  = match ValidationTrace.Value e with
    | Some v => "(" +:+ ValidationTrace.Field e +:+ ") " +:+ ValidationTrace.Message e
                +:+ ": " +:+ v
    | None => "(" +:+ ValidationTrace.Field e +:+ ") " +:+ ValidationTrace.Message e
    end.
Proof. reflexivity. Qed.

(** X23. [AddValidationErrors] returns a new response with code 400 and the
    message ["Validation failed"].  With a process-wide [MaxTraceSize]
    N >= 1, up to N errors give one trace entry each, in order:
    ["validation: (<field>) <message>: <value>"] for an error with a value,
    ["validation: (<field>) <message>"] for an error without one.  With more
    than N errors the trace has the first N - 1 of these entries and, in its
    last slot, the text of the last error without the ["validation: "]
    prefix: ["(<field>) <message>: <value>"] or ["(<field>) <message>"].
    With no error the trace is empty. *)
Theorem AddValidationErrors_trace :
  forall (errs : list ValidationTrace.t) (st : State) (n : nat),
    MaxTraceSize (globalConfig st) = Z.of_nat n ->
    (1 <= n)%nat ->
    exists r,
      AddValidationErrors errs st
      = Some (length (heap st), setHeap (heap st ++ [r]) st) /\
      Code r = 400 /\ Message r = "Validation failed" /\
      ContentType r = DefaultContentType (globalConfig st) /\
      Timestamp r = clock st /\
      let entries :=
        (fun e =>
           match ValidationTrace.Value e with
           | Some v => "validation: (" +:+ ValidationTrace.Field e +:+ ") "
                       +:+ ValidationTrace.Message e +:+ ": " +:+ v
           | None => "validation: (" +:+ ValidationTrace.Field e +:+ ") "
                     +:+ ValidationTrace.Message e
           end) <$> errs in
      ((length errs <= n)%nat -> Trace r = entries) /\
      ((n < length errs)%nat ->
       exists e, last errs = Some e /\
         Trace r
         = take (n - 1) entries
           ++ [match ValidationTrace.Value e with
               | Some v => "(" +:+ ValidationTrace.Field e +:+ ") "
                           +:+ ValidationTrace.Message e +:+ ": " +:+ v
               | None => "(" +:+ ValidationTrace.Field e +:+ ") "
                         +:+ ValidationTrace.Message e
               end]).
Proof.
  intros errs st n Hcap Hn.
  set (r0 := {| Module_ := ""; Message := "Validation failed"; Data := anyNil;
                Trace := []; Timestamp := clock st; PaginationData := None;
                Code := StatusBadRequest;
                ContentType := DefaultContentType (globalConfig st);
                TracePrefix := ""; config := zeroConfig |}).
  exists (appendTraceInternal (globalConfig st) "validation"
            (anyString <$> (validationTraceMsg <$> errs)) r0).
  assert (Hrun : AddValidationErrors errs st
                 = Some (length (heap st),
                         setHeap (heap st ++
                           [appendTraceInternal (globalConfig st) "validation"
                              (anyString <$> (validationTraceMsg <$> errs)) r0]) st)).
  { destruct errs as [|e rest].
    - cbn. unfold appendTraceInternal, appendTrace. cbn. reflexivity.
    - unfold AddValidationErrors, bind, BadRequest, newBaseResponse, new.
      fold r0.
      rewrite (addValidationTraces_run _ _ _ r0)
        by (cbn; by rewrite list_lookup_middle).
      cbn [heap setHeap globalConfig]. f_equal. f_equal.
      unfold setHeap. cbn. f_equal.
      rewrite insert_app_r_alt by lia.
      replace (length (heap st) - length (heap st))%nat with 0%nat by lia.
      reflexivity. }
  split; [exact Hrun|].
  unfold appendTraceInternal, appendTrace.
  cbn [Code Message ContentType Timestamp Trace setTrace r0].
  repeat (split; [reflexivity|]).
  rewrite getResponseConfig_zero by reflexivity.
  rewrite (appendTraceLoop_internal _ "validation" n Hcap Hn) by (cbn; lia).
  rewrite textsOf_strings, length_fmap. cbn [length app Nat.add].
  rewrite <- list_fmap_compose. cbv zeta.
  assert (Hentries :
    (fun s => "validation" +:+ ": " +:+ s) ∘ validationTraceMsg
    <$> errs
    = (fun e =>
         match ValidationTrace.Value e with
         | Some v => "validation: (" +:+ ValidationTrace.Field e +:+ ") "
                     +:+ ValidationTrace.Message e +:+ ": " +:+ v
         | None => "validation: (" +:+ ValidationTrace.Field e +:+ ") "
                   +:+ ValidationTrace.Message e
         end) <$> errs).
  { apply list_fmap_ext. intros _ e _. unfold compose.
    rewrite validationTraceMsg_text.
    by destruct (ValidationTrace.Value e). }
  rewrite Hentries.
  split; intros Hlen.
  - destruct (decide _); [reflexivity | lia].
  - destruct (decide _); [lia|].
    destruct (last errs) as [e|] eqn:Elast.
    + exists e. split; [reflexivity|].
      by rewrite fmap_last, Elast.
    + apply last_None in Elast. subst errs. cbn in Hlen. lia.
Qed.

(** Two errors under the default capacity of 50, and the same two under a
    capacity of one. *)
Lemma AddValidationErrors_trace_witness :
  (exists r,
     AddValidationErrors
       [ValidationTrace.mk "email" "is not valid" (Some "x@");
        ValidationTrace.mk "password" "is too short" None]
       (initState noon)
     = Some (0%nat, setHeap [r] (initState noon)) /\
     Code r = 400 /\ Message r = "Validation failed" /\
     Trace r = ["validation: (email) is not valid: x@";
                "validation: (password) is too short"]) /\
  (exists r,
     AddValidationErrors
       [ValidationTrace.mk "email" "is not valid" (Some "x@");
        ValidationTrace.mk "password" "is too short" None]
       (setGlobalConfig (mkConfig 1 10485760 20 "application/json" true)
          (initState noon))
     = Some (0%nat,
             setHeap [r]
               (setGlobalConfig (mkConfig 1 10485760 20 "application/json" true)
                  (initState noon))) /\
     Code r = 400 /\ Message r = "Validation failed" /\
     Trace r = ["(password) is too short"]).
Proof.
  split.
  - destruct (AddValidationErrors_trace
                [ValidationTrace.mk "email" "is not valid" (Some "x@");
                 ValidationTrace.mk "password" "is too short" None]
                (initState noon) 50%nat eq_refl ltac:(lia))
      as (r & Hrun & Hc & Hm & _ & _ & Hfit & _).
    exists r. repeat (split; [assumption|]). apply Hfit. cbn. lia.
  - destruct (AddValidationErrors_trace
                [ValidationTrace.mk "email" "is not valid" (Some "x@");
                 ValidationTrace.mk "password" "is too short" None]
                (setGlobalConfig (mkConfig 1 10485760 20 "application/json" true)
                   (initState noon)) 1%nat eq_refl ltac:(lia))
      as (r & Hrun & Hc & Hm & _ & _ & _ & Hover).
    exists r. repeat (split; [assumption|]).
    destruct Hover as (e & He & Htr); [cbn; lia|].
    cbn in He. injection He as <-. exact Htr.
Defined.

(** ** The further delivery properties at concrete inputs *)


(** Applies the constructors of [Live.Invoked] to a concrete registry. *)
Ltac invoke :=
  repeat first
    [ apply Live.invoked_none
    | eapply Live.invoked_simple;
      [ first [left; reflexivity | right; reflexivity]
      | reflexivity | reflexivity | ]
    | eapply Live.invoked_with_context;
      [ discriminate | discriminate | reflexivity | reflexivity | ] ].

(** A not-found response delivered through an interceptor that sets the
    code to 202 and one that tags the module: status and body carry both
    changes.  The same response with code 0, as [Base] builds it, and a
    response whose code an interceptor sets to 1000, cannot be delivered. *)
Lemma SendWithContext_emits_witness :
  (exists w' st',
     Live.SendWithContext sampleImplementation sampleMarshal sampleMarshalCompact
       recorder ctxBackground newResponseWriter 0%nat
       (liveProcess [2; 0]%nat [sampleResponse zeroConfig []]) []
     = Some (w', st', [Live.calledInterceptSimple 2%nat 0%nat 404;
                       Live.calledInterceptSimple 0%nat 0%nat 202]) /\
     Header w' !! "Content-Type" = Some "application/json" /\
     status w' = Some 202 /\
     body w' = jsonObject [member "module" (quoted "seen");
                           member "timestamp" (quoted "2024-05-01T12:00:00Z");
                           member "code" "202"] +:+ newline) /\
  Live.SendWithContext sampleImplementation sampleMarshal sampleMarshalCompact
    recorder ctxBackground newResponseWriter 0%nat
    (liveProcess [] [setCode 0 (sampleResponse zeroConfig [])]) [] = None /\
  Live.SendWithContext sampleImplementation sampleMarshal sampleMarshalCompact
    recorder ctxBackground newResponseWriter 0%nat
    (liveProcess [3%nat] [sampleResponse zeroConfig []]) [] = None.
Proof.
  split; [|split].
  - edestruct (SendWithContext_emits_what_interceptors_leave sampleImplementation
                 sampleMarshal sampleMarshalCompact recorder
                 (liveProcess [2; 0]%nat [sampleResponse zeroConfig []]) []
                 ctxBackground newResponseWriter 0%nat (sampleResponse zeroConfig []))
      as [_ Hok]; [reflexivity | reflexivity | invoke | reflexivity |].
    destruct Hok as (w' & st' & Hrun & _ & Hbody); [cbn; lia|].
    exists w', st'. split; [exact Hrun|].
    exact (Hbody _ eq_refl eq_refl).
  - edestruct (SendWithContext_emits_what_interceptors_leave sampleImplementation
                 sampleMarshal sampleMarshalCompact recorder
                 (liveProcess [] [setCode 0 (sampleResponse zeroConfig [])]) []
                 ctxBackground newResponseWriter 0%nat
                 (setCode 0 (sampleResponse zeroConfig [])))
      as [Hpanic _]; [reflexivity | reflexivity | invoke | reflexivity |].
    apply Hpanic. left. reflexivity.
  - edestruct (SendWithContext_emits_what_interceptors_leave sampleImplementation
                 sampleMarshal sampleMarshalCompact recorder
                 (liveProcess [3%nat] [sampleResponse zeroConfig []]) []
                 ctxBackground newResponseWriter 0%nat (sampleResponse zeroConfig []))
      as [Hpanic _]; [reflexivity | reflexivity | invoke | reflexivity |].
    apply Hpanic. right. reflexivity.
Defined.


(** A response whose payload the encoder does not support, with size
    validation off in its own configuration; and a response the encoder
    supports on a writer that fails after the first byte. *)
Lemma SendWithContext_encoding_failure_witness :
  (exists st' r',
     Live.SendWithContext sampleImplementation sampleMarshal sampleMarshalCompact
       recorder ctxBackground newResponseWriter 0%nat
       (liveProcess []
          [setData (anyOther 0) (sampleResponse validationOff ["trace: a"])]) []
     = Some ({| Header := {["Content-Type" := "application/json"]};
                status := Some 404; body := "" |}, st', []) /\
     Live.heap st' !! 0%nat = Some r' /\
     Trace r' = ["trace: a"; "internal error: encoding failed: json: unsupported type"]) /\
  (exists st' r',
     Live.SendWithContext sampleImplementation sampleMarshal sampleMarshalCompact
       brokenPipe ctxBackground newResponseWriter 0%nat
       (liveProcess [] [sampleResponse zeroConfig ["trace: a"]]) []
     = Some ({| Header := {["Content-Type" := "application/json"]};
                status := Some 404; body := "{" |}, st', []) /\
     Live.heap st' !! 0%nat = Some r' /\
     Trace r' = ["trace: a"; "internal error: encoding failed: write: broken pipe"]).
Proof.
  split.
  - edestruct (SendWithContext_records_encoding_failure sampleImplementation
                 sampleMarshal sampleMarshalCompact recorder
                 (liveProcess []
                    [setData (anyOther 0) (sampleResponse validationOff ["trace: a"])])
                 [] ctxBackground newResponseWriter 0%nat
                 (setData (anyOther 0) (sampleResponse validationOff ["trace: a"])))
      as (st' & r' & Hrun & Hr' & _ & Htrace);
      [reflexivity | reflexivity | invoke | reflexivity
      | vm_compute; split; discriminate
      | left; split; reflexivity |].
    exists st', r'. split; [exact Hrun|]. split; [exact Hr'|].
    apply Htrace. reflexivity.
  - edestruct (SendWithContext_records_encoding_failure sampleImplementation
                 sampleMarshal sampleMarshalCompact brokenPipe
                 (liveProcess [] [sampleResponse zeroConfig ["trace: a"]])
                 [] ctxBackground newResponseWriter 0%nat
                 (sampleResponse zeroConfig ["trace: a"]))
      as (st' & r' & Hrun & Hr' & _ & Htrace);
      [reflexivity | reflexivity | invoke | reflexivity
      | vm_compute; split; discriminate
      | right; eexists; split; reflexivity |].
    exists st', r'. split; [exact Hrun|]. split; [exact Hr'|].
    apply Htrace. reflexivity.
Defined.

Lemma validateResponseSize_cases_witness :
  (EnableSizeValidation (getResponseConfig defaultConfig oversized) = false ->
   validateResponseSize sampleMarshalCompact defaultConfig oversized = None) /\
  (EnableSizeValidation (getResponseConfig defaultConfig oversized) = true ->
   (forall err, sampleMarshalCompact (wire oversized) = inr err ->
      validateResponseSize sampleMarshalCompact defaultConfig oversized
      = Some (EncodingError err)) /\
   (forall b, sampleMarshalCompact (wire oversized) = inl b ->
      (Z.of_nat (String.length b) <= 10 ->
       validateResponseSize sampleMarshalCompact defaultConfig oversized = None) /\
      (10 < Z.of_nat (String.length b) ->
       validateResponseSize sampleMarshalCompact defaultConfig oversized
       = Some (SizeLimitError (Z.of_nat (String.length b)) 10)))).
Proof.
  exact (validateResponseSize_cases sampleMarshalCompact defaultConfig oversized).
Defined.

Lemma IsWithinLimits_iff_witness :
  IsWithinLimits sampleMarshalCompact defaultConfig
    (sampleResponse (traceCap 1) ["trace: a"; "trace: b"]) = false.
Proof.
  destruct (IsWithinLimits sampleMarshalCompact defaultConfig
              (sampleResponse (traceCap 1) ["trace: a"; "trace: b"])) eqn:E;
    [|reflexivity].
  apply (IsWithinLimits_iff sampleMarshalCompact defaultConfig
           (sampleResponse (traceCap 1) ["trace: a"; "trace: b"])) in E.
  destruct E as [E _]. cbn in E. lia.
Defined.

Lemma WithPagination_block_witness :
  exists m,
    WithPagination sampleCeil (Params.mk 2 10) 35 (sampleResponse zeroConfig [])
    = setPaginationData (Some m) (sampleResponse zeroConfig []) /\
    Page m = 2 /\ Limit m = 10 /\ Total m = 35 /\ TotalPages m = 4 /\
    (HasPrev m = true <-> 1 < Page m) /\
    (HasNext m = true <-> Page m < TotalPages m) /\
    (is_Some (PrevPage m) <-> HasPrev m = true) /\
    (is_Some (NextPage m) <-> HasNext m = true) /\
    (forall q, PrevPage m = Some q -> q = Page m - 1 /\ 1 <= q) /\
    (forall q, NextPage m = Some q -> q = Page m + 1 /\ q <= TotalPages m).
Proof.
  exact (WithPagination_block sampleCeil (Params.mk 2 10) 35
           (sampleResponse zeroConfig [])).
Defined.

(** ** More on caller-facing appends *)

(** X24. The two ways of choosing a prefix agree: [AddTrace] on a response
    whose trace prefix was set with [WithTracePrefix(p)] stores what
    [AddPrefixedTrace(p, ...)] stores, and both fall back to the prefix
    ["trace"] when [p] is empty. *)
Theorem AddTrace_after_WithTracePrefix :
  forall (g : Config) (p : string) (trace : list any) (r : Response),
    Trace (AddTrace g trace (WithTracePrefix p r)) = Trace (AddPrefixedTrace g p trace r) /\
    AddPrefixedTrace g "" trace r = AddPrefixedTrace g "trace" trace r.
Proof.
  intros g p trace r. split.
  - unfold AddTrace, AddPrefixedTrace, WithTracePrefix. cbn [TracePrefix setTracePrefix].
    by case_bool_decide.
  - unfold AddPrefixedTrace.
    rewrite (bool_decide_eq_true_2 ("" = "")) by reflexivity.
    by rewrite (bool_decide_eq_false_2 ("trace" = "")) by discriminate.
Qed.

(** X25. A caller-facing append of at least one entry with a text, on a
    trace that already has N >= 1 entries or more (N the resolved
    capacity), stores none of the entries: it writes the truncation marker
    into slot N - 1 and leaves every other entry and the length as they are.
    On a trace longer than the capacity the marker therefore lands inside
    the trace, not at its end. *)
Theorem caller_append_on_full_trace_writes_marker :
  forall (g : Config) (prefix : string) (trace : list any) (r : Response) (n : nat),
    MaxTraceSize (getResponseConfig g r) = Z.of_nat n ->
    (1 <= n <= length (Trace r))%nat ->
    textsOf trace <> [] ->
    Trace (appendTrace g prefix false trace r)
    = <[(n - 1)%nat := truncMsg (Z.of_nat n)]> (Trace r).
Proof.
  intros g prefix trace r n Hcap Hn Htexts.
  unfold appendTrace. cbn [Trace setTrace].
  generalize (Trace r) Hn. clear Hn. intros tr Hn.
  assert (Hcfg : forall cfg, MaxTraceSize cfg = Z.of_nat n ->
            appendTraceLoop cfg prefix false trace tr
            = <[(n - 1)%nat := truncMsg (Z.of_nat n)]> tr).
  { intros cfg Hc.
    induction trace as [|t rest IH]; [contradiction|].
    cbn [appendTraceLoop]. destruct (traceText t) as [s|] eqn:Et.
    - cbv zeta. rewrite Hc.
      replace (Z.to_nat (Z.of_nat n - 1)) with (n - 1)%nat by lia.
      destruct (Z.ltb_spec (Z.of_nat (length tr)) (Z.of_nat n)); [lia|].
      destruct (Z.ltb_spec 0 (Z.of_nat n)); [|lia]. cbn [andb negb].
      case_bool_decide; [|reflexivity]. symmetry. by apply list_insert_id.
    - apply IH. by rewrite textsOf_cons_skip in Htexts. }
  by apply Hcfg.
Qed.

Lemma caller_append_on_full_trace_witness :
  Trace (appendTrace defaultConfig "trace" false [anyOther 1; anyString "d"]
           (sampleResponse (traceCap 2) ["trace: a"; "trace: b"; "trace: c"]))
  = ["trace: a"; truncMsg 2; "trace: c"].
Proof.
  apply (caller_append_on_full_trace_writes_marker defaultConfig "trace"
           [anyOther 1; anyString "d"]
           (sampleResponse (traceCap 2) ["trace: a"; "trace: b"; "trace: c"]) 2%nat);
    [reflexivity | cbn; lia | discriminate].
Defined.
